(** * grpcweb: a gRPC-Web to gRPC bridge (saracen/grpcweb, grpcweb.go)

    A shallow embedding of [grpcweb.go] and of the parts of Go's
    [net/http], [net/textproto], [encoding/base64] and [encoding/binary]
    it calls, followed by the properties of the bridge.

    Go strings and byte slices are byte sequences: both are [string] here
    (a list of [ascii], one per byte).  A [http.Header] is a Go
    [map[string][]string]: a [gmap string (list string)]. *)

From Stdlib Require Import ZArith NArith Ascii String List Lia Bool.
From stdpp Require Import base gmap strings list sorting.

Local Open Scope Z_scope.

(** ** Content types and header names (grpcweb.go, lines 12-28) *)

Definition ContentTypeGRPC : string := "application/grpc".
Definition ContentTypeGRPCWeb : string := "application/grpc-web".
Definition ContentTypeGRPCWebProto : string := "application/grpc-web+proto".
Definition ContentTypeGRPCWebText : string := "application/grpc-web-text".
Definition ContentTypeGRPCWebTextProto : string := "application/grpc-web-text+proto".

Definition headerContentType : string := "content-type".
Definition headerContentLength : string := "content-length".
Definition headerTE : string := "te".
Definition headerGRPCAcceptEncoding : string := "grpc-accept-encoding".
Definition headerAccept : string := "accept".
Definition headerTrailer : string := "trailer".

(** ** net/textproto and net/http: header maps *)

Module textproto.

Definition in_range (lo hi c : ascii) : bool :=
  (N_of_ascii lo <=? N_of_ascii c)%N && (N_of_ascii c <=? N_of_ascii hi)%N.

Definition isLower (c : ascii) : bool := in_range "a" "z" c.
Definition isUpper (c : ascii) : bool := in_range "A" "Z" c.
Definition isDigit (c : ascii) : bool := in_range "0" "9" c.

(** The distance between a lower-case letter and its upper-case form. *)
Definition toLower : N := 32.

Definition upcase (c : ascii) : ascii := ascii_of_N (N_of_ascii c - toLower).
Definition downcase (c : ascii) : ascii := ascii_of_N (N_of_ascii c + toLower).

(** [validHeaderFieldByte]: the bytes of an RFC 7230 token. *)
Definition validHeaderFieldByte (c : ascii) : bool :=
  isLower c || isUpper c || isDigit c
  || bool_decide (c ∈ ["!"; "#"; "$"; "%"; "&"; "'"; "*"; "+"; "-"; ".";
                        "^"; "_"; "`"; "|"; "~"]%char).

Fixpoint all_bytes (p : ascii → bool) (s : string) : bool :=
  match s with
  | EmptyString => true
  | String c s' => p c && all_bytes p s'
  end.

(** The casing loop of [canonicalMIMEHeaderKey]: upper case for the first
    letter and for each letter after a dash, lower case elsewhere. *)
Fixpoint recase (upper : bool) (s : string) : string :=
  match s with
  | EmptyString => EmptyString
  | String c s' =>
      let c' := if upper && isLower c then upcase c
                else if negb upper && isUpper c then downcase c
                else c in
      String c' (recase (bool_decide (c' = "-"%char)) s')
  end.

(** [CanonicalMIMEHeaderKey]: a key holding a byte that is not a token
    byte (a space included) is returned unchanged. *)
Definition CanonicalMIMEHeaderKey (s : string) : string :=
  if all_bytes validHeaderFieldByte s then recase true s else s.

(** [TrimString]: leading and trailing ASCII space is removed. *)
Definition isASCIISpace (c : ascii) : bool :=
  bool_decide (c ∈ [" "; "009"; "010"; "013"]%char).

Fixpoint trimLeft (s : string) : string :=
  match s with
  | EmptyString => EmptyString
  | String c s' => if isASCIISpace c then trimLeft s' else s
  end.

Fixpoint trimRight (s : string) : string :=
  match s with
  | EmptyString => EmptyString
  | String c s' =>
      match trimRight s' with
      | EmptyString => if isASCIISpace c then EmptyString else String c EmptyString
      | t => String c t
      end
  end.

Definition TrimString (s : string) : string := trimRight (trimLeft s).

End textproto.

Module http.

(** [http.Header]: [map[string][]string]. *)
Abbreviation Header := (gmap string (list string)).

Definition values (h : Header) (key : string) : list string :=
  default [] (h !! key).

(** [Header.Get]: the first value under the canonical form of [key], or
    the empty string. *)
Definition Get (h : Header) (key : string) : string :=
  match values h (textproto.CanonicalMIMEHeaderKey key) with
  | [] => ""
  | v :: _ => v
  end.

Definition Set_ (h : Header) (key value : string) : Header :=
  <[textproto.CanonicalMIMEHeaderKey key := [value]]> h.

Definition Add (h : Header) (key value : string) : Header :=
  let k := textproto.CanonicalMIMEHeaderKey key in
  <[k := values h k ++ [value]]> h.

Definition Del (h : Header) (key : string) : Header :=
  delete (textproto.CanonicalMIMEHeaderKey key) h.

End http.

(** [strings.ToLower] and [strings.HasPrefix].  Header names are ASCII, and on
    an ASCII string [strings.ToLower] maps the bytes A-Z to a-z. *)
Module strings.

Fixpoint ToLower (s : string) : string :=
  match s with
  | EmptyString => EmptyString
  | String c s' =>
      String (if textproto.isUpper c then textproto.downcase c else c) (ToLower s')
  end.

Definition HasPrefix (s prefix : string) : bool := String.prefix prefix s.

End strings.

(** ** Bytes as unsigned integers *)

Definition to_uint (c : ascii) : Z := Z.of_N (N_of_ascii c).

(** Go's conversion [byte(x)] keeps the low eight bits. *)
Definition to_byte (x : Z) : ascii := ascii_of_N (Z.to_N (Z.land x 255)).

(** ** encoding/binary: big-endian 32-bit words *)

Module binary.

(** Go's conversion [uint32(n)] of an [int]. *)
Definition uint32 (n : Z) : Z := n mod 2 ^ 32.

(** [BigEndian.PutUint32]. *)
Definition PutUint32 (v : Z) : string :=
  String (to_byte (Z.shiftr v 24))
    (String (to_byte (Z.shiftr v 16))
       (String (to_byte (Z.shiftr v 8))
          (String (to_byte v) EmptyString))).

(** [BigEndian.Uint32], on a slice of at least four bytes. *)
Definition Uint32 (b : string) : option Z :=
  match b with
  | String b0 (String b1 (String b2 (String b3 _))) =>
      Some (Z.lor (Z.lor (Z.lor (to_uint b3) (Z.shiftl (to_uint b2) 8))
                     (Z.shiftl (to_uint b1) 16))
              (Z.shiftl (to_uint b0) 24))
  | _ => None
  end.

End binary.

(** ** encoding/base64: the standard encoding, with padding *)

Inductive error : Type :=
| CorruptInputError   (* base64.CorruptInputError *)
| ErrUnexpectedEOF.   (* io.ErrUnexpectedEOF *)

Module base64.

Definition encodeStd : string :=
  "ABCDEFGHIJKLMNOPQRSTUVWXYZabcdefghijklmnopqrstuvwxyz0123456789+/".

Definition StdPadding : ascii := "="%char.

(** [enc.encode[v]], for a six-bit [v]. *)
Definition encode (v : Z) : ascii :=
  default "A"%char (String.get (Z.to_nat v) encodeStd).

Fixpoint index_from (i : Z) (s : string) (c : ascii) : Z :=
  match s with
  | EmptyString => 255
  | String x s' => if Ascii.eqb x c then i else index_from (i + 1) s' c
  end.

(** [enc.decodeMap[c]]: the index of [c] in the alphabet, 0xff for a byte
    outside of it. *)
Definition decodeMap (c : ascii) : Z := index_from 0 encodeStd c.

(** The 24-bit value of a group of three bytes. *)
Definition val3 (a b c : ascii) : Z :=
  Z.lor (Z.lor (Z.shiftl (to_uint a) 16) (Z.shiftl (to_uint b) 8)) (to_uint c).

Definition sextet (val : Z) (shift : Z) : ascii :=
  encode (Z.land (Z.shiftr val shift) 63).

(** [Encoding.Encode]: four characters for each group of three bytes; a
    last group of one or two bytes is padded. *)
Fixpoint Encode (src : string) : string :=
  match src with
  | EmptyString => EmptyString
  | String a EmptyString =>
      let val := Z.shiftl (to_uint a) 16 in
      String (sextet val 18) (String (sextet val 12)
        (String StdPadding (String StdPadding EmptyString)))
  | String a (String b EmptyString) =>
      let val := Z.lor (Z.shiftl (to_uint a) 16) (Z.shiftl (to_uint b) 8) in
      String (sextet val 18) (String (sextet val 12)
        (String (sextet val 6) (String StdPadding EmptyString)))
  | String a (String b (String c rest)) =>
      let val := val3 a b c in
      String (sextet val 18) (String (sextet val 12)
        (String (sextet val 6) (String (sextet val 0) (Encode rest))))
  end.

(** The streaming encoder ([base64.NewEncoder]) keeps the bytes of an
    incomplete group ([buf], at most two bytes) until the group is
    completed by a later [Write] or the encoder is closed.  [groups s] is
    the encoding of the complete groups of [s], with the bytes left over. *)
Fixpoint groups (s : string) : string * string :=
  match s with
  | String a (String b (String c rest)) =>
      let val := val3 a b c in
      let '(out, held) := groups rest in
      (String (sextet val 18) (String (sextet val 12)
         (String (sextet val 6) (String (sextet val 0) out))), held)
  | _ => (EmptyString, s)
  end.

(** [encoder.Write]: returns what is written to the underlying writer and
    the bytes held back. *)
Definition encoder_Write (buf p : string) : string * string :=
  groups (buf +:+ p).

(** [encoder.Close]: the bytes held back are encoded with padding. *)
Definition encoder_Close (buf : string) : string := Encode buf.

(** What reaches the underlying writer when the chunks [ps] are written to
    an encoder holding [buf] and the encoder is then closed. *)
Fixpoint encoder_stream (buf : string) (ps : list string) : string :=
  match ps with
  | [] => encoder_Close buf
  | p :: ps' =>
      let '(out, held) := encoder_Write buf p in
      out +:+ encoder_stream held ps'
  end.

(** The decoder drops CR and LF from its input. *)
Fixpoint newlineFilter (s : string) : string :=
  match s with
  | EmptyString => EmptyString
  | String c s' =>
      if bool_decide (c = "010"%char ∨ c = "013"%char) then newlineFilter s'
      else String c (newlineFilter s')
  end.

(** The bytes of a quantum of [n] characters (missing ones count as 0). *)
Definition bytes_of_quantum (d0 d1 d2 d3 : Z) : ascii * ascii * ascii :=
  let val := Z.lor (Z.lor (Z.lor (Z.shiftl d0 18) (Z.shiftl d1 12))
                      (Z.shiftl d2 6)) d3 in
  (to_byte (Z.shiftr val 16), to_byte (Z.shiftr val 8), to_byte val).

(** The streaming decoder ([base64.NewDecoder]) read to its end: the bytes
    it delivers and the error it stops with, if any.  Input is taken four
    characters at a time ([decodeQuantum], not strict); an incomplete last
    quantum is [io.ErrUnexpectedEOF]; anything after padding is corrupt
    input (as when the input arrives in one read). *)
Fixpoint decode (s : string) : string * option error :=
  match s with
  | EmptyString => (EmptyString, None)
  | String c0 (String c1 (String c2 (String c3 rest))) =>
      let d0 := decodeMap c0 in
      let d1 := decodeMap c1 in
      let d2 := decodeMap c2 in
      let d3 := decodeMap c3 in
      let garbage := if bool_decide (rest = EmptyString) then None
                     else Some CorruptInputError in
      if (d0 =? 255) || (d1 =? 255) then (EmptyString, Some CorruptInputError)
      else if d2 =? 255 then
        if bool_decide (c2 = StdPadding ∧ c3 = StdPadding) then
          let '(b0, _, _) := bytes_of_quantum d0 d1 0 0 in
          (String b0 EmptyString, garbage)
        else (EmptyString, Some CorruptInputError)
      else if d3 =? 255 then
        if bool_decide (c3 = StdPadding) then
          let '(b0, b1, _) := bytes_of_quantum d0 d1 d2 0 in
          (String b0 (String b1 EmptyString), garbage)
        else (EmptyString, Some CorruptInputError)
      else
        let '(b0, b1, b2) := bytes_of_quantum d0 d1 d2 d3 in
        let '(out, err) := decode rest in
        (String b0 (String b1 (String b2 out)), err)
  | _ => (EmptyString, Some ErrUnexpectedEOF)
  end.

Definition DecodeStream (s : string) : string * option error :=
  decode (newlineFilter s).

End base64.

(** ** Request bodies

    A request body is an [io.ReadCloser].  The body handed over by the
    transport is a byte stream with a descriptor [fd]; closing it records
    [fd] in the set of closed descriptors. *)

Inductive ReadCloser : Type :=
| TransportBody (fd : nat) (data : string)
| bodyCloser (Reader : Reader) (closer : ReadCloser)   (* grpcweb.go, 153-156 *)
with Reader : Type :=
| AsReader (rc : ReadCloser)     (* a ReadCloser used as an io.Reader *)
| NewDecoder (r : Reader).       (* base64.NewDecoder(base64.StdEncoding, r) *)

(** Reading a stream to its end ([ioutil.ReadAll]): the bytes delivered and
    the error the stream stopped with, if it is not [io.EOF].  A read error
    of the stream under a decoder is passed on by the decoder. *)
Fixpoint ReadCloser_ReadAll (rc : ReadCloser) : string * option error :=
  match rc with
  | TransportBody _ data => (data, None)
  | bodyCloser rd _ => Reader_ReadAll rd
  end
with Reader_ReadAll (r : Reader) : string * option error :=
  match r with
  | AsReader rc => ReadCloser_ReadAll rc
  | NewDecoder r' =>
      let '(data, rerr) := Reader_ReadAll r' in
      let '(out, derr) := base64.DecodeStream data in
      (out, match derr, rerr with
            | Some CorruptInputError, _ => Some CorruptInputError
            | Some ErrUnexpectedEOF, None => Some ErrUnexpectedEOF
            | Some ErrUnexpectedEOF, Some e => Some e
            | None, _ => rerr
            end)
  end.

(** [bodyCloser.Close] (grpcweb.go, 158-160) closes [bc.closer]. *)
Fixpoint Close (rc : ReadCloser) (closed : gset nat) : gset nat :=
  match rc with
  | TransportBody fd _ => {[fd]} ∪ closed
  | bodyCloser _ closer => Close closer closed
  end.

(** ** Requests *)

Record Request : Type := mkRequest {
  ProtoMajor : Z;
  ProtoMinor : Z;
  Header : http.Header;
  Body : ReadCloser
}.

(** ** The transport's response writer

    [http.ResponseWriter] is an interface; the bridge is given the
    transport's implementation of it.  The model is the contract of
    net/http: the status line and a snapshot of the header map are sent by
    the first [WriteHeader], or by the first [Write] or [Flush] if there was
    none (with status 200); changes of the header map after that do not
    reach the client; later calls of [WriteHeader] are ignored. *)

Record response : Type := mkResponse {
  rw_header : http.Header;
  rw_sent : option (Z * http.Header);
  rw_body : string;
  rw_flushes : nat
}.

Definition StatusOK : Z := 200.

Definition response_WriteHeader (statusCode : Z) (r : response) : response :=
  match rw_sent r with
  | Some _ => r
  | None => mkResponse (rw_header r) (Some (statusCode, rw_header r))
                       (rw_body r) (rw_flushes r)
  end.

Definition response_Write (p : string) (r : response) : response :=
  let r := response_WriteHeader StatusOK r in
  mkResponse (rw_header r) (rw_sent r) (rw_body r +:+ p) (rw_flushes r).

Definition response_Flush (r : response) : response :=
  let r := response_WriteHeader StatusOK r in
  mkResponse (rw_header r) (rw_sent r) (rw_body r) (S (rw_flushes r)).

Definition response_withHeader (f : http.Header → http.Header) (r : response)
  : response :=
  mkResponse (f (rw_header r)) (rw_sent r) (rw_body r) (rw_flushes r).

(** ** gRPCWebResponseWriter (grpcweb.go, 162-198) *)

(** The [encoder] field is an [io.Writer]: nil, the wrapped writer itself,
    or a base64 encoder in front of the wrapped writer, holding [buf]. *)
Inductive Writer : Type :=
| WrappedWriter
| Base64Encoder (buf : string).

Record gRPCWebResponseWriter : Type := mkWriter {
  wrapped : response;
  encoder : option Writer;
  contentType : string
}.

Definition gRPCWebResponseWriter_Header (w : gRPCWebResponseWriter) : http.Header :=
  rw_header (wrapped w).

Definition gRPCWebResponseWriter_withHeader (f : http.Header → http.Header)
    (w : gRPCWebResponseWriter) : gRPCWebResponseWriter :=
  mkWriter (response_withHeader f (wrapped w)) (encoder w) (contentType w).

(** [w.encoder.Write(p)].  The base64 encoder calls the wrapped writer only
    when it has completed a group. *)
Definition Writer_Write (e : Writer) (p : string) (r : response)
  : Writer * response :=
  match e with
  | WrappedWriter => (WrappedWriter, response_Write p r)
  | Base64Encoder buf =>
      let '(out, held) := base64.encoder_Write buf p in
      (Base64Encoder held,
       if bool_decide (out = EmptyString) then r else response_Write out r)
  end.

Definition gRPCWebResponseWriter_Write (p : string) (w : gRPCWebResponseWriter)
  : gRPCWebResponseWriter :=
  let '(e, r) :=
    match encoder w with
    | None =>
        (if bool_decide (contentType w = ContentTypeGRPCWebTextProto)
         then Base64Encoder EmptyString else WrappedWriter,
         response_withHeader
           (λ h, http.Set_ h headerContentType (contentType w)) (wrapped w))
    | Some e => (e, wrapped w)
    end in
  let '(e, r) := Writer_Write e p r in
  mkWriter r (Some e) (contentType w).

Definition gRPCWebResponseWriter_WriteHeader (statusCode : Z)
    (w : gRPCWebResponseWriter) : gRPCWebResponseWriter :=
  let r := response_withHeader
             (λ h, http.Set_ h headerContentType (contentType w)) (wrapped w) in
  mkWriter (response_WriteHeader statusCode r) (encoder w) (contentType w).

(** [Flush]: only the base64 encoder is an [io.WriteCloser] (the response
    writers of net/http have no [Close]); it is closed, which writes its
    padded last group, and dropped. *)
Definition gRPCWebResponseWriter_Flush (w : gRPCWebResponseWriter)
  : gRPCWebResponseWriter :=
  let '(e, r) :=
    match encoder w with
    | Some (Base64Encoder buf) =>
        (None, if bool_decide (buf = EmptyString) then wrapped w
               else response_Write (base64.encoder_Close buf) (wrapped w))
    | e => (e, wrapped w)
    end in
  mkWriter (response_Flush r) e (contentType w).

(** ** Handlers

    A [http.Handler] is given a response writer and a request.  What it does
    with the writer is a sequence of calls of the writer's methods and of
    updates of the header map that [Header()] returns. *)

Inductive call : Type :=
| CallWrite (p : string)
| CallWriteHeader (statusCode : Z)
| CallFlush
| CallHeaderSet (key value : string)      (* w.Header().Set(key, value) *)
| CallHeaderAdd (key value : string)      (* w.Header().Add(key, value) *)
| CallHeaderDel (key : string)            (* w.Header().Del(key) *)
| CallHeaderStore (key : string) (vs : list string).   (* w.Header()[key] = vs *)

Definition Handler : Type := Request → list call.

Class ResponseWriter (W : Type) : Type := {
  rwHeader : W → http.Header;
  rwWithHeader : (http.Header → http.Header) → W → W;
  rwWrite : string → W → W;
  rwWriteHeader : Z → W → W;
  rwFlush : W → W
}.

#[export] Instance response_ResponseWriter : ResponseWriter response := {
  rwHeader := rw_header;
  rwWithHeader := response_withHeader;
  rwWrite := response_Write;
  rwWriteHeader := response_WriteHeader;
  rwFlush := response_Flush
}.

#[export] Instance gRPCWebResponseWriter_ResponseWriter
  : ResponseWriter gRPCWebResponseWriter := {
  rwHeader := gRPCWebResponseWriter_Header;
  rwWithHeader := gRPCWebResponseWriter_withHeader;
  rwWrite := gRPCWebResponseWriter_Write;
  rwWriteHeader := gRPCWebResponseWriter_WriteHeader;
  rwFlush := gRPCWebResponseWriter_Flush
}.

Definition exec `{ResponseWriter W} (w : W) (c : call) : W :=
  match c with
  | CallWrite p => rwWrite p w
  | CallWriteHeader statusCode => rwWriteHeader statusCode w
  | CallFlush => rwFlush w
  | CallHeaderSet k v => rwWithHeader (λ h, http.Set_ h k v) w
  | CallHeaderAdd k v => rwWithHeader (λ h, http.Add h k v) w
  | CallHeaderDel k => rwWithHeader (λ h, http.Del h k) w
  | CallHeaderStore k vs => rwWithHeader (λ h, <[k := vs]> h) w
  end.

Definition run `{ResponseWriter W} (cs : list call) (w : W) : W :=
  foldl exec w cs.

(** [h.ServeHTTP(resp, req)] for a handler [h]. *)
Definition Handler_ServeHTTP `{ResponseWriter W} (h : Handler) (resp : W)
    (req : Request) : W :=
  run (h req) resp.

(** ** Writing a header map ([http.Header.Write]) *)

Definition CRLF : string := String "013" (String "010" EmptyString).

Fixpoint flatten (ls : list string) : string :=
  match ls with
  | [] => EmptyString
  | s :: ls' => s +:+ flatten ls'
  end.

(** [headerNewlineToSpace]: CR and LF in a value become spaces. *)
Fixpoint headerNewlineToSpace (s : string) : string :=
  match s with
  | EmptyString => EmptyString
  | String c s' =>
      String (if bool_decide (c = "010"%char ∨ c = "013"%char) then " "%char else c)
             (headerNewlineToSpace s')
  end.

(** [httpguts.ValidHeaderFieldName]: a non-empty token. *)
Definition ValidHeaderFieldName (k : string) : bool :=
  negb (bool_decide (k = EmptyString))
  && textproto.all_bytes textproto.validHeaderFieldByte k.

Definition header_line (k v : string) : string :=
  k +:+ ": " +:+ textproto.TrimString (headerNewlineToSpace v) +:+ CRLF.

(** The keys of a header map in the order [Header.Write] takes them:
    sorted as byte strings. *)
Definition sortedKeys (h : http.Header) : list string :=
  merge_sort String.le (map_to_list h).*1.

(** [h.Write(buf)]: one line per value, keys in sorted order; a key that is
    not a valid field name is left out. *)
Definition Header_Write (h : http.Header) : string :=
  flatten (map (λ k, if ValidHeaderFieldName k
                     then flatten (map (header_line k) (http.values h k))
                     else EmptyString)
               (sortedKeys h)).

(** ** Ranging over a Go map

    The order in which [range] visits the entries of a map is not
    specified.  An order is given by [range_of]; every property below
    holds for each of them. *)
Class RangeOrder : Type := {
  range_of : http.Header → list (string * list string);
  range_of_perm : ∀ h, range_of h ≡ₚ map_to_list h
}.

#[export] Instance map_to_list_RangeOrder : RangeOrder := {|
  range_of := map_to_list;
  range_of_perm := λ h, Permutation_refl (map_to_list h)
|}.

(** ** Classification (grpcweb.go, 133-151) *)

Definition IsGRPCWebRequest (req : Request) : bool :=
  bool_decide (http.Get (Header req) headerContentType
               ∈ [ContentTypeGRPCWeb; ContentTypeGRPCWebProto;
                  ContentTypeGRPCWebText; ContentTypeGRPCWebTextProto]).

Definition IsGRPCRequest (req : Request) : bool :=
  (ProtoMajor req =? 2)
  && strings.HasPrefix (http.Get (Header req) headerContentType) ContentTypeGRPC.

(** ** grpcWebHandler.ServeHTTP (grpcweb.go, 67-131) *)

(** Lines 73-103: the request is converted in place and the content type of
    the response is chosen. *)
Definition convert (req : Request) : Request * string :=
  (* convert to HTTP/2 request *)
  let req := mkRequest 2 (ProtoMinor req) (Header req) (Body req) in
  let req := mkRequest (ProtoMajor req) 0 (Header req) (Body req) in
  (* ensure chunked encoding *)
  let req := mkRequest (ProtoMajor req) (ProtoMinor req)
               (http.Del (Header req) headerContentLength) (Body req) in
  let isTextRequest :=
    bool_decide (http.Get (Header req) headerContentType
                 ∈ [ContentTypeGRPCWebText; ContentTypeGRPCWebTextProto]) in
  let req := mkRequest (ProtoMajor req) (ProtoMinor req)
               (http.Set_ (Header req) headerContentType ContentTypeGRPC) (Body req) in
  let isTextResponse :=
    bool_decide (http.Get (Header req) headerAccept
                 ∈ [ContentTypeGRPCWebText; ContentTypeGRPCWebTextProto]) in
  let req := mkRequest (ProtoMajor req) (ProtoMinor req)
               (http.Set_ (Header req) headerTE "trailers") (Body req) in
  let req := mkRequest (ProtoMajor req) (ProtoMinor req)
               (http.Set_ (Header req) headerGRPCAcceptEncoding "identity,deflate,gzip")
               (Body req) in
  let req := if isTextRequest
             then mkRequest (ProtoMajor req) (ProtoMinor req) (Header req)
                    (bodyCloser (NewDecoder (AsReader (Body req))) (Body req))
             else req in
  let contentType := if isTextResponse then ContentTypeGRPCWebTextProto
                     else ContentTypeGRPCWebProto in
  (req, contentType).

(** Lines 111-123: the first entry met whose key is "trailer" in lower case
    gives the declared trailer names. *)
Fixpoint declared_trailers (entries : list (string * list string)) : list string :=
  match entries with
  | [] => []
  | (header, val) :: rest =>
      if bool_decide (strings.ToLower header = headerTrailer) then val
      else declared_trailers rest
  end.

Definition collect_trailers (h : http.Header) (val : list string) : http.Header :=
  foldl (λ trailers trailer,
           let field := http.Get h trailer in
           if bool_decide (field = EmptyString) then trailers
           else http.Set_ trailers trailer field)
        ∅ val.

(** The trailer block: [trailers.Write(buf)] (lines 110-126). *)
Definition trailer_block `{RangeOrder} (h : http.Header) : string :=
  Header_Write (collect_trailers h (declared_trailers (range_of h))).

(** Lines 109-130: the trailers are written through [resp.Write]. *)
Definition write_trailers `{RangeOrder} (resp : gRPCWebResponseWriter)
  : gRPCWebResponseWriter :=
  let buf := trailer_block (gRPCWebResponseWriter_Header resp) in
  let resp := gRPCWebResponseWriter_Write
                (String (to_byte (Z.shiftl 1 7)) EmptyString) resp in
  let resp := gRPCWebResponseWriter_Write
                (binary.PutUint32 (binary.uint32 (Z.of_nat (String.length buf))))
                resp in
  (* buf.WriteTo(resp) writes nothing when the buffer is empty *)
  if bool_decide (buf = EmptyString) then resp
  else gRPCWebResponseWriter_Write buf resp.

Definition grpcWebHandler_ServeHTTP `{RangeOrder} (handler : Handler)
    (resp : response) (req : Request) : response :=
  if negb (IsGRPCWebRequest req) then Handler_ServeHTTP handler resp req
  else
    let '(req, contentType) := convert req in
    (* handle request *)
    let resp := mkWriter resp None contentType in
    let resp := Handler_ServeHTTP handler resp req in
    (* write trailers *)
    wrapped (write_trailers resp).

(** ** RootHandler (grpcweb.go, 48-65) *)

Definition RootHandler `{RangeOrder} (gRPCHandler fallback : Handler)
    (resp : response) (req : Request) : response :=
  if IsGRPCWebRequest req then grpcWebHandler_ServeHTTP gRPCHandler resp req
  else if IsGRPCRequest req then Handler_ServeHTTP gRPCHandler resp req
  else Handler_ServeHTTP fallback resp req.

(** * Vocabulary of the properties *)

Definition is_text (ct : string) : Prop :=
  ct = "application/grpc-web-text" ∨ ct = "application/grpc-web-text+proto".

(** The calls a handler may make before its first body write that leave
    the encoder alone: everything but [Write] and [Flush]. *)
Definition before_write (c : call) : bool :=
  match c with
  | CallWrite _ | CallFlush => false
  | _ => true
  end.

(** The bytes held back by the encoder of a response writer. *)
Definition pending (w : gRPCWebResponseWriter) : string :=
  match encoder w with
  | Some (Base64Encoder buf) => buf
  | _ => EmptyString
  end.

(** [k] is the canonical form of a declared trailer name whose header has
    a non-empty (first) value. *)
Definition trailer_named (h : http.Header) (decl : list string) (k : string) : Prop :=
  Exists (λ t, textproto.CanonicalMIMEHeaderKey t = k ∧ http.Get h t ≠ EmptyString) decl.

(** The trailer block as the specification words it: a line for each
    declared name with a non-empty value, in the order of declaration. *)
Definition trailer_block_in_declared_order (h : http.Header) (decl : list string)
  : string :=
  flatten (map (λ t, t +:+ ": " +:+ http.Get h t +:+ CRLF)
               (filter (λ t, http.Get h t ≠ EmptyString) decl)).

(** The trailer frame of a trailer block: the marker byte, the length of
    the block as a big-endian 32-bit word, the block. *)
Definition trailer_frame (block : string) : string :=
  String (to_byte (Z.shiftl 1 7)) EmptyString
  +:+ binary.PutUint32 (binary.uint32 (Z.of_nat (String.length block)))
  +:+ block.

(** The alphabet, checked entry by entry: decoding inverts encoding, and no
    character of the alphabet is CR, LF or the padding character. *)
Definition alphabet_entry_ok (v : Z) : bool :=
  (base64.decodeMap (base64.encode v) =? v)
  && negb (bool_decide (base64.encode v = "010"%char ∨ base64.encode v = "013"%char))
  && negb (bool_decide (base64.encode v = base64.StdPadding)).

(** * Requests and handlers of the test suite (grpcweb_test.go) *)

Definition zeros (n : nat) : string :=
  string_of_list_ascii (replicate n "000"%char).

Definition bytes (l : list Z) : string :=
  string_of_list_ascii (map to_byte l).

(** The calls of the gRPC server for the reply messages [msgs] and a final
    status: the trailers are declared before the body and set after it, and
    every message is flushed. *)
Definition grpc_reply (msgs : list string) (status : list (string * string))
  : list call :=
  [CallHeaderSet "Content-Type" "application/grpc";
   CallHeaderAdd "Trailer" "Grpc-Status";
   CallHeaderAdd "Trailer" "Grpc-Message";
   CallHeaderAdd "Trailer" "Grpc-Status-Details-Bin";
   CallWriteHeader 200]
  ++ flat_map (λ m, [CallWrite m; CallFlush]) msgs
  ++ map (λ kv, CallHeaderSet kv.1 kv.2) status
  ++ [CallFlush].

(** [EmptyCall]: the reply is an empty message if the body could be read. *)
Definition EmptyCall : Handler := λ req,
  match ReadCloser_ReadAll (Body req) with
  | (_, None) => grpc_reply [zeros 5] [("Grpc-Status", "0")]
  | (_, Some _) =>
      grpc_reply [] [("Grpc-Status", "13"); ("Grpc-Message", "unexpected EOF")]
  end.

(** [StreamingOutputCall]: two reply messages, of 5 and of 10 bytes. *)
Definition StreamingOutputCall : Handler := λ _,
  grpc_reply
    [bytes [0; 0; 0; 0; 9; 10; 7; 18; 5; 0; 0; 0; 0; 0];
     bytes [0; 0; 0; 0; 14; 10; 12; 18; 10; 0; 0; 0; 0; 0; 0; 0; 0; 0; 0]]
    [("Grpc-Status", "0")].

(** A request as the test client sends it, over HTTP/1.1. *)
Definition web_request (ct accept body : string) : Request :=
  mkRequest 1 1 (http.Set_ (http.Set_ ∅ "content-type" ct) "accept" accept)
            (TransportBody 0 body).

(** The response writer of a request not yet answered. *)
Definition fresh : response := mkResponse ∅ None EmptyString 0.

(** A request over HTTP/2 whose content type is a gRPC-Web token. *)
Definition web_request_h2 : Request :=
  mkRequest 2 0 (http.Set_ ∅ "content-type" ContentTypeGRPCWeb)
            (TransportBody 0 EmptyString).

(** The response header of the gRPC server when a call fails. *)
Definition failed_call_header : http.Header :=
  http.Set_
    (http.Set_
       (http.Add (http.Add ∅ "Trailer" "Grpc-Status") "Trailer" "Grpc-Message")
       "Grpc-Status" "13")
    "Grpc-Message" "unexpected EOF".

(** The third request of the test suite (a text request whose base64 body
    lacks its padding), asking for a text response instead of a binary one. *)
Definition unpadded_text_request : Request :=
  web_request ContentTypeGRPCWebText ContentTypeGRPCWebText "AAAAAAA".

(** * Vocabulary of the further properties *)

(** The chunks a sequence of calls writes, in order. *)
Fixpoint written (cs : list call) : list string :=
  match cs with
  | [] => []
  | CallWrite p :: cs' => p :: written cs'
  | _ :: cs' => written cs'
  end.

(** The runs of bytes a sequence of calls writes between its flushes, the
    first one after the bytes [buf], the last one still open. *)
Fixpoint runs (buf : string) (cs : list call) : list string :=
  match cs with
  | [] => [buf]
  | CallWrite p :: cs' => runs (buf +:+ p) cs'
  | CallFlush :: cs' => buf :: runs EmptyString cs'
  | _ :: cs' => runs buf cs'
  end.

Fixpoint flushes (cs : list call) : nat :=
  match cs with
  | [] => 0%nat
  | CallFlush :: cs' => S (flushes cs')
  | _ :: cs' => flushes cs'
  end.

(** At most one key of the header map is "trailer" in lower case. *)
Definition one_trailer_key (h : http.Header) : Prop :=
  ∀ k1 k2, strings.ToLower k1 = headerTrailer → strings.ToLower k2 = headerTrailer →
           is_Some (h !! k1) → is_Some (h !! k2) → k1 = k2.

(** A handler that answers with two chunks and a status trailer, flushing
    only at the end. *)
Definition two_chunks : Handler := λ _,
  [CallHeaderAdd "Trailer" "Grpc-Status";
   CallWrite (bytes [0; 0; 0; 0; 2; 8]); CallWrite (bytes [7]);
   CallHeaderSet "Grpc-Status" "0"; CallFlush].

(** A binary gRPC-Web request carrying metadata of its own. *)
Definition binary_request : Request :=
  mkRequest 1 1
    (http.Set_ (http.Set_ (http.Set_ ∅ "content-type" ContentTypeGRPCWebProto)
                  "content-length" "5") "x-user" "ada")
    (TransportBody 3 (zeros 5)).

(** A native gRPC request, and a request that is no gRPC at all. *)
Definition native_request : Request :=
  mkRequest 2 0 (http.Set_ ∅ "content-type" "application/grpc+proto")
            (TransportBody 0 (zeros 5)).

Definition plain_request : Request :=
  mkRequest 1 1 (http.Set_ ∅ "content-type" "text/html") (TransportBody 0 EmptyString).

(** Another order of ranging over a map: the reverse of the first. *)
Definition reversed_RangeOrder : RangeOrder := {|
  range_of := λ h, reverse (map_to_list h);
  range_of_perm := λ h, reverse_Permutation (map_to_list h)
|}.

(** The calls that only update the header map. *)
Definition header_update (c : call) : bool :=
  match c with
  | CallWrite _ | CallWriteHeader _ | CallFlush => false
  | _ => true
  end.

(** * Properties *)

(** ** Strings *)

Lemma app_nil_l (s : string) : EmptyString +:+ s = s.
Proof. done. Qed.

Lemma app_cons (c : ascii) (s t : string) : String c s +:+ t = String c (s +:+ t).
Proof. done. Qed.

Lemma app_nil_r (s : string) : s +:+ EmptyString = s.
Proof. induction s as [|c s IH]; [done|]. by rewrite app_cons, IH. Qed.

Lemma app_assoc (s t u : string) : (s +:+ t) +:+ u = s +:+ t +:+ u.
Proof. induction s as [|c s IH]; [done|]. by rewrite !app_cons, IH. Qed.


Lemma prefix_app (p s : string) :
  String.prefix p s = true ↔ ∃ rest, s = p +:+ rest.
Proof.
  revert s. induction p as [|c p IH]; intros s.
  - split; [by exists s|]. by destruct s.
  - destruct s as [|d s]; cbn.
    + split; [done|]. by intros [? ?].
    + destruct (ascii_dec c d) as [->|Hne].
      * rewrite IH. split; intros [rest Hr]; exists rest.
        -- by rewrite app_cons, Hr.
        -- rewrite app_cons in Hr. by injection Hr.
      * split; [done|]. intros [rest Hr]. rewrite app_cons in Hr. by injection Hr.
Qed.

(** ** Header maps *)

(** The canonical form of a literal key, by computation. *)
Ltac canonical_key :=
  repeat match goal with
  | |- context [textproto.CanonicalMIMEHeaderKey ?k] =>
      let k' := eval vm_compute in (textproto.CanonicalMIMEHeaderKey k) in
      change (textproto.CanonicalMIMEHeaderKey k) with k'
  end.

(** Lookups in a map built by inserts and deletes at literal keys. *)
Ltac header_lookup :=
  unfold http.Get, http.Set_, http.Del, http.values; canonical_key;
  repeat first
    [ rewrite lookup_insert_eq
    | rewrite lookup_delete_eq
    | rewrite lookup_insert_ne by done
    | rewrite lookup_delete_ne by done ];
  try done.

Lemma Get_lookup (h : http.Header) (key : string) :
  http.Get h key = hd EmptyString (http.values h (textproto.CanonicalMIMEHeaderKey key)).
Proof. unfold http.Get. by destruct (http.values _ _). Qed.

Lemma Get_Set_eq (h : http.Header) (key value : string) :
  http.Get (http.Set_ h key value) key = value.
Proof. unfold http.Get, http.Set_, http.values. by rewrite lookup_insert_eq. Qed.

Lemma Get_Set_ne (h : http.Header) (key key' value : string) :
  textproto.CanonicalMIMEHeaderKey key ≠ textproto.CanonicalMIMEHeaderKey key' →
  http.Get (http.Set_ h key value) key' = http.Get h key'.
Proof.
  intros Hne. unfold http.Get, http.Set_, http.values.
  by rewrite lookup_insert_ne.
Qed.

Lemma Get_Del_eq (h : http.Header) (key : string) :
  http.Get (http.Del h key) key = EmptyString.
Proof. unfold http.Get, http.Del, http.values. by rewrite lookup_delete_eq. Qed.

Lemma Get_Del_ne (h : http.Header) (key key' : string) :
  textproto.CanonicalMIMEHeaderKey key ≠ textproto.CanonicalMIMEHeaderKey key' →
  http.Get (http.Del h key) key' = http.Get h key'.
Proof.
  intros Hne. unfold http.Get, http.Del, http.values.
  by rewrite lookup_delete_ne.
Qed.

(** ** Classification *)

(** C2: [IsGRPCWebRequest] holds exactly when the content-type header is one
    of the four gRPC-Web tokens, and fails for every other string. *)
Theorem IsGRPCWebRequest_iff (req : Request) :
  let ct := http.Get (Header req) "content-type" in
  (IsGRPCWebRequest req = true
   ↔ ct = "application/grpc-web" ∨ ct = "application/grpc-web+proto"
     ∨ ct = "application/grpc-web-text" ∨ ct = "application/grpc-web-text+proto")
  ∧ (IsGRPCWebRequest req = false
     ↔ ct ≠ "application/grpc-web" ∧ ct ≠ "application/grpc-web+proto"
       ∧ ct ≠ "application/grpc-web-text" ∧ ct ≠ "application/grpc-web-text+proto").
Proof.
  cbn zeta. unfold IsGRPCWebRequest, headerContentType.
  rewrite bool_decide_eq_true, bool_decide_eq_false.
  rewrite !elem_of_cons, elem_of_nil.
  unfold ContentTypeGRPCWeb, ContentTypeGRPCWebProto, ContentTypeGRPCWebText,
    ContentTypeGRPCWebTextProto.
  tauto.
Qed.

(** C3: [IsGRPCRequest] holds exactly when the protocol major version is 2
    and the content-type header begins with application/grpc; it fails for
    every request of major version 1. *)
Theorem IsGRPCRequest_iff (req : Request) :
  (IsGRPCRequest req = true
   ↔ ProtoMajor req = 2
     ∧ ∃ rest, http.Get (Header req) "content-type" = "application/grpc" +:+ rest)
  ∧ (ProtoMajor req = 1 → IsGRPCRequest req = false).
Proof.
  unfold IsGRPCRequest, strings.HasPrefix, headerContentType, ContentTypeGRPC.
  split.
  - rewrite andb_true_iff, Z.eqb_eq, prefix_app. done.
  - intros ->. done.
Qed.

(** C4, as the specification states it, fails: a request over HTTP/2 whose
    content type is application/grpc-web satisfies both predicates. *)
Lemma classes_overlap :
  IsGRPCWebRequest web_request_h2 = true ∧ IsGRPCRequest web_request_h2 = true.
Proof. split; reflexivity. Qed.

Lemma IsGRPCWebRequest_prefix (req : Request) :
  IsGRPCWebRequest req = true →
  strings.HasPrefix (http.Get (Header req) headerContentType) ContentTypeGRPC = true.
Proof.
  unfold IsGRPCWebRequest. rewrite bool_decide_eq_true, !elem_of_cons, elem_of_nil.
  intros [-> | [-> | [-> | [-> | []]]]]; reflexivity.
Qed.

(** C4, amended: both predicates hold exactly for the gRPC-Web requests of
    protocol major version 2 (every gRPC-Web token begins with
    application/grpc); with another major version they never both hold; and
    [RootHandler] gives every gRPC-Web request to the gRPC-Web handler. *)
Theorem classes_overlap_iff `{RangeOrder} (req : Request) :
  (IsGRPCWebRequest req = true ∧ IsGRPCRequest req = true
   ↔ IsGRPCWebRequest req = true ∧ ProtoMajor req = 2)
  ∧ (ProtoMajor req ≠ 2 →
     ¬ (IsGRPCWebRequest req = true ∧ IsGRPCRequest req = true))
  ∧ (IsGRPCWebRequest req = true →
     ∀ gRPCHandler fallback resp,
       RootHandler gRPCHandler fallback resp req
       = grpcWebHandler_ServeHTTP gRPCHandler resp req).
Proof.
  assert (Hiff : IsGRPCWebRequest req = true ∧ IsGRPCRequest req = true
                 ↔ IsGRPCWebRequest req = true ∧ ProtoMajor req = 2).
  { unfold IsGRPCRequest. split.
    - intros [Hw [Hm _]%andb_true_iff]. by apply Z.eqb_eq in Hm.
    - intros [Hw Hm]. split; [done|].
      apply andb_true_iff. split; [by apply Z.eqb_eq|].
      by apply IsGRPCWebRequest_prefix. }
  split; [exact Hiff|]. split.
  - intros Hne Hboth. apply Hiff in Hboth. tauto.
  - intros Hw g f resp. unfold RootHandler. by rewrite Hw.
Qed.

(** ** The request seen by the wrapped handler *)

Lemma canonical_keys :
  textproto.CanonicalMIMEHeaderKey headerContentType = "Content-Type"
  ∧ textproto.CanonicalMIMEHeaderKey headerContentLength = "Content-Length"
  ∧ textproto.CanonicalMIMEHeaderKey headerTE = "Te"
  ∧ textproto.CanonicalMIMEHeaderKey headerGRPCAcceptEncoding = "Grpc-Accept-Encoding"
  ∧ textproto.CanonicalMIMEHeaderKey headerAccept = "Accept".
Proof. repeat split; reflexivity. Qed.

Lemma is_text_elem (ct : string) :
  ct ∈ [ContentTypeGRPCWebText; ContentTypeGRPCWebTextProto] ↔ is_text ct.
Proof. rewrite !elem_of_cons, elem_of_nil. unfold is_text. tauto. Qed.

Lemma convert_contentType (req : Request) :
  (convert req).2
  = if bool_decide (is_text (http.Get (Header req) "accept"))
    then ContentTypeGRPCWebTextProto else ContentTypeGRPCWebProto.
Proof.
  unfold convert. cbn [snd Header].
  rewrite Get_Set_ne, Get_Del_ne by done.
  by rewrite (bool_decide_ext _ _ (is_text_elem _)).
Qed.

Lemma convert_request (req : Request) :
  (convert req).1
  = mkRequest 2 0
      (<["Grpc-Accept-Encoding" := ["identity,deflate,gzip"]]>
         (<["Te" := ["trailers"]]>
            (<["Content-Type" := ["application/grpc"]]>
               (delete "Content-Length" (Header req)))))
      (if bool_decide (is_text (http.Get (Header req) "content-type"))
       then bodyCloser (NewDecoder (AsReader (Body req))) (Body req)
       else Body req).
Proof.
  unfold convert. cbn [fst Header Body ProtoMajor ProtoMinor].
  rewrite Get_Del_ne by done.
  rewrite (bool_decide_ext _ _ (is_text_elem _)).
  unfold headerContentType. by case_bool_decide.
Qed.

(** C5: the request the wrapped handler is called with has protocol version
    2.0, no content-length header, content type application/grpc, te
    trailers and grpc-accept-encoding identity,deflate,gzip; when the
    content type was a text token its body is a base64 decoder in front of
    the original body, and closing it closes the original body. *)
Theorem handler_sees_converted_request `{RangeOrder} (handler : Handler)
    (resp : response) (req : Request) :
  IsGRPCWebRequest req = true →
  let ct := http.Get (Header req) "content-type" in
  let req' := (convert req).1 in
  grpcWebHandler_ServeHTTP handler resp req
  = wrapped (write_trailers
               (Handler_ServeHTTP handler (mkWriter resp None (convert req).2) req'))
  ∧ ProtoMajor req' = 2 ∧ ProtoMinor req' = 0
  ∧ Header req' !! "Content-Length" = None
  ∧ http.Get (Header req') "content-length" = EmptyString
  ∧ Header req' !! "Content-Type" = Some ["application/grpc"]
  ∧ http.Get (Header req') "content-type" = "application/grpc"
  ∧ http.Get (Header req') "te" = "trailers"
  ∧ http.Get (Header req') "grpc-accept-encoding" = "identity,deflate,gzip"
  ∧ (is_text ct →
     Body req' = bodyCloser (NewDecoder (AsReader (Body req))) (Body req)
     ∧ (∀ closed, Close (Body req') closed = Close (Body req) closed)
     ∧ ReadCloser_ReadAll (Body req')
       = ReadCloser_ReadAll (bodyCloser (NewDecoder (AsReader (Body req))) (Body req)))
  ∧ (¬ is_text ct → Body req' = Body req).
Proof.
  intros Hweb ct req'.
  split.
  { unfold grpcWebHandler_ServeHTTP. rewrite Hweb. cbn [negb].
    subst req'. by destruct (convert req). }
  subst req'. rewrite convert_request.
  cbn [ProtoMajor ProtoMinor Header Body].
  split_and!; try done; try by header_lookup.
  - intros Ht. by rewrite bool_decide_eq_true_2.
  - intros Ht. by rewrite bool_decide_eq_false_2.
Qed.

(** ** Base64 *)

Lemma string_ind3 (P : string → Prop) :
  P EmptyString →
  (∀ a, P (String a EmptyString)) →
  (∀ a b, P (String a (String b EmptyString))) →
  (∀ a b c rest, P rest → P (String a (String b (String c rest)))) →
  ∀ s, P s.
Proof.
  intros H0 H1 H2 H3.
  assert (Hall : ∀ s, P s ∧ (∀ a, P (String a s)) ∧ (∀ a b, P (String a (String b s)))).
  { induction s as [|c s (IH0 & IH1 & IH2)]; [by auto|].
    split_and!; [apply IH1 | intros a; apply IH2 | intros a b; by apply H3]. }
  intros s. apply Hall.
Qed.

Lemma testbit_small (b k n : Z) : 0 ≤ b < 2 ^ k → k ≤ n → Z.testbit b n = false.
Proof.
  intros Hb Hn. destruct (Z_lt_le_dec k 0) as [Hk|Hk].
  - rewrite Z.pow_neg_r in Hb by lia. lia.
  - rewrite <- (Z.mod_small b (2 ^ k)) by lia.
    apply Z.mod_pow2_bits_high. lia.
Qed.

(** Bitwise or of numbers with no common bit is their sum. *)
Lemma lor_add (a b k : Z) :
  0 ≤ k → a mod 2 ^ k = 0 → 0 ≤ b < 2 ^ k → Z.lor a b = a + b.
Proof.
  intros Hk Ha Hb.
  assert (Hland : Z.land a b = 0).
  { apply Z.bits_inj'. intros n Hn. rewrite Z.land_spec, Z.bits_0.
    destruct (Z_lt_le_dec n k) as [Hlt|Hle].
    - rewrite <- (Z.mod_pow2_bits_low a k n) by lia.
      by rewrite Ha, Z.bits_0.
    - rewrite (testbit_small b k n) by lia. apply andb_false_r. }
  rewrite Z.add_nocarry_lxor by exact Hland. symmetry. by apply Z.lxor_lor.
Qed.

(** Shifts and masks by constants as multiplication, division and
    remainder. *)
Ltac to_arith :=
  rewrite ?Z.shiftl_mul_pow2, ?Z.shiftr_div_pow2 by lia;
  change 63 with (Z.ones 6); change 255 with (Z.ones 8);
  rewrite ?Z.land_ones by lia;
  change (2 ^ 0) with 1; change (2 ^ 6) with 64; change (2 ^ 8) with 256;
  change (2 ^ 12) with 4096; change (2 ^ 16) with 65536;
  change (2 ^ 18) with 262144; change (2 ^ 24) with 16777216.

Lemma lor3_arith (A B C : Z) :
  0 ≤ A < 256 → 0 ≤ B < 256 → 0 ≤ C < 256 →
  Z.lor (Z.lor (Z.shiftl A 16) (Z.shiftl B 8)) C = A * 65536 + B * 256 + C.
Proof.
  intros. to_arith.
  rewrite (lor_add (A * 65536) (B * 256) 16)
    by (change (2 ^ 16) with 65536; try apply Z.mod_mul; lia).
  rewrite (lor_add _ C 8); change (2 ^ 8) with 256; try lia.
  Z.div_mod_to_equations. lia.
Qed.

Lemma lor2_arith (A B : Z) :
  0 ≤ A < 256 → 0 ≤ B < 256 →
  Z.lor (Z.shiftl A 16) (Z.shiftl B 8) = A * 65536 + B * 256.
Proof.
  intros. pose proof (lor3_arith A B 0) as H3. rewrite Z.lor_0_r in H3.
  rewrite H3 by lia. lia.
Qed.

Lemma lor4_arith (d0 d1 d2 d3 : Z) :
  0 ≤ d0 < 64 → 0 ≤ d1 < 64 → 0 ≤ d2 < 64 → 0 ≤ d3 < 64 →
  Z.lor (Z.lor (Z.lor (Z.shiftl d0 18) (Z.shiftl d1 12)) (Z.shiftl d2 6)) d3
  = d0 * 262144 + d1 * 4096 + d2 * 64 + d3.
Proof.
  intros. to_arith.
  rewrite (lor_add (d0 * 262144) (d1 * 4096) 18);
    change (2 ^ 18) with 262144; try lia; [|apply Z.mod_mul; lia].
  rewrite (lor_add _ (d2 * 64) 12);
    change (2 ^ 12) with 4096; try lia; [|Z.div_mod_to_equations; lia].
  rewrite (lor_add _ d3 6); change (2 ^ 6) with 64; try lia.
  Z.div_mod_to_equations. lia.
Qed.

Lemma to_uint_range (c : ascii) : 0 ≤ to_uint c < 256.
Proof. unfold to_uint. pose proof (N_ascii_bounded c). lia. Qed.

Lemma to_byte_to_uint (x : Z) (c : ascii) : x mod 256 = to_uint c → to_byte x = c.
Proof.
  intros Hx. unfold to_byte. change 255 with (Z.ones 8).
  rewrite Z.land_ones by lia. change (2 ^ 8) with 256. rewrite Hx.
  unfold to_uint. rewrite N2Z.id. apply ascii_N_embedding.
Qed.

Lemma alphabet_ok (v : Z) : 0 ≤ v < 64 → alphabet_entry_ok v = true.
Proof.
  intros Hv.
  assert (Hall : forallb alphabet_entry_ok (map Z.of_nat (seq 0 64)) = true)
    by (vm_compute; reflexivity).
  rewrite forallb_forall in Hall. apply Hall.
  apply in_map_iff. exists (Z.to_nat v). split; [lia|].
  apply in_seq. lia.
Qed.

Lemma sextet_range (val k : Z) : 0 ≤ k → 0 ≤ Z.land (Z.shiftr val k) 63 < 64.
Proof.
  intros Hk. change 63 with (Z.ones 6). rewrite Z.land_ones by lia.
  apply Z.mod_pos_bound. lia.
Qed.

Lemma sextet_decodeMap (val k : Z) :
  0 ≤ k → base64.decodeMap (base64.sextet val k) = Z.land (Z.shiftr val k) 63.
Proof.
  intros Hk. pose proof (alphabet_ok _ (sextet_range val k Hk)) as Hok.
  unfold alphabet_entry_ok in Hok. apply andb_true_iff in Hok as [Hok _].
  apply andb_true_iff in Hok as [Hok _]. by apply Z.eqb_eq in Hok.
Qed.

Lemma sextet_not_newline (val k : Z) :
  0 ≤ k →
  bool_decide (base64.sextet val k = "010"%char ∨ base64.sextet val k = "013"%char)
  = false.
Proof.
  intros Hk. pose proof (alphabet_ok _ (sextet_range val k Hk)) as Hok.
  unfold alphabet_entry_ok in Hok. apply andb_true_iff in Hok as [Hok _].
  apply andb_true_iff in Hok as [_ Hok]. by apply negb_true_iff in Hok.
Qed.

Lemma sextet_valid (val k : Z) :
  0 ≤ k → (base64.decodeMap (base64.sextet val k) =? 255) = false.
Proof.
  intros Hk. rewrite sextet_decodeMap by done.
  pose proof (sextet_range val k Hk). apply Z.eqb_neq. lia.
Qed.

Lemma padding_invalid : base64.decodeMap base64.StdPadding = 255.
Proof. reflexivity. Qed.

(** The three bytes of a quantum built from a group of three bytes. *)
Lemma quantum_of_three (a b c : ascii) :
  let val := base64.val3 a b c in
  let d k := Z.land (Z.shiftr val k) 63 in
  base64.bytes_of_quantum (d 18) (d 12) (d 6) (d 0) = (a, b, c).
Proof.
  intros val d. subst d val. unfold base64.bytes_of_quantum, base64.val3.
  pose proof (to_uint_range a). pose proof (to_uint_range b).
  pose proof (to_uint_range c).
  rewrite lor4_arith by (apply sextet_range; lia).
  rewrite lor3_arith by done.
  f_equal; [f_equal|]; apply to_byte_to_uint; to_arith;
    Z.div_mod_to_equations; lia.
Qed.

(** A last group of two bytes: the third byte of the quantum is not used. *)
Lemma quantum_of_two (a b : ascii) :
  let val := Z.lor (Z.shiftl (to_uint a) 16) (Z.shiftl (to_uint b) 8) in
  let d k := Z.land (Z.shiftr val k) 63 in
  (let '(b0, b1, _) := base64.bytes_of_quantum (d 18) (d 12) (d 6) 0 in (b0, b1))
  = (a, b).
Proof.
  intros val d. subst d val. unfold base64.bytes_of_quantum.
  pose proof (to_uint_range a). pose proof (to_uint_range b).
  rewrite lor4_arith by (try apply sextet_range; lia).
  rewrite lor2_arith by done.
  f_equal; apply to_byte_to_uint; to_arith; Z.div_mod_to_equations; lia.
Qed.

(** A last group of one byte. *)
Lemma quantum_of_one (a : ascii) :
  let val := Z.shiftl (to_uint a) 16 in
  let d k := Z.land (Z.shiftr val k) 63 in
  (let '(b0, _, _) := base64.bytes_of_quantum (d 18) (d 12) 0 0 in b0) = a.
Proof.
  intros val d. subst d val. unfold base64.bytes_of_quantum.
  pose proof (to_uint_range a).
  rewrite lor4_arith by (try apply sextet_range; lia).
  apply to_byte_to_uint; to_arith; Z.div_mod_to_equations; lia.
Qed.

Lemma decode_quad (c0 c1 c2 c3 : ascii) (rest : string) :
  base64.decode (String c0 (String c1 (String c2 (String c3 rest))))
  = let d0 := base64.decodeMap c0 in
    let d1 := base64.decodeMap c1 in
    let d2 := base64.decodeMap c2 in
    let d3 := base64.decodeMap c3 in
    let garbage := if bool_decide (rest = EmptyString) then None
                   else Some CorruptInputError in
    if (d0 =? 255) || (d1 =? 255) then (EmptyString, Some CorruptInputError)
    else if d2 =? 255 then
      if bool_decide (c2 = base64.StdPadding ∧ c3 = base64.StdPadding) then
        let '(b0, _, _) := base64.bytes_of_quantum d0 d1 0 0 in
        (String b0 EmptyString, garbage)
      else (EmptyString, Some CorruptInputError)
    else if d3 =? 255 then
      if bool_decide (c3 = base64.StdPadding) then
        let '(b0, b1, _) := base64.bytes_of_quantum d0 d1 d2 0 in
        (String b0 (String b1 EmptyString), garbage)
      else (EmptyString, Some CorruptInputError)
    else
      let '(b0, b1, b2) := base64.bytes_of_quantum d0 d1 d2 d3 in
      let '(out, err) := base64.decode rest in
      (String b0 (String b1 (String b2 out)), err).
Proof. reflexivity. Qed.

Lemma Encode_three (a b c : ascii) (rest : string) :
  base64.Encode (String a (String b (String c rest)))
  = let val := base64.val3 a b c in
    String (base64.sextet val 18) (String (base64.sextet val 12)
      (String (base64.sextet val 6) (String (base64.sextet val 0)
         (base64.Encode rest)))).
Proof. reflexivity. Qed.

(** Decoding what [Encode] produced gives the bytes back. *)
Lemma decode_Encode (s : string) : base64.decode (base64.Encode s) = (s, None).
Proof.
  induction s as [|a|a b|a b c rest IH] using string_ind3.
  - reflexivity.
  - cbn [base64.Encode]. rewrite decode_quad. cbn zeta.
    rewrite !sextet_valid by lia. rewrite padding_invalid. cbn [orb Z.eqb].
    rewrite bool_decide_eq_true_2 by done.
    rewrite !sextet_decodeMap by lia.
    pose proof (quantum_of_one a) as Hq. cbn zeta in Hq.
    destruct (base64.bytes_of_quantum _ _ 0 0) as [[b0 b1] b2].
    by rewrite Hq.
  - cbn [base64.Encode]. rewrite decode_quad. cbn zeta.
    rewrite !sextet_valid by lia. rewrite padding_invalid. cbn [orb Z.eqb].
    rewrite bool_decide_eq_true_2 by done.
    rewrite !sextet_decodeMap by lia.
    pose proof (quantum_of_two a b) as Hq. cbn zeta in Hq.
    destruct (base64.bytes_of_quantum _ _ _ 0) as [[b0 b1] b2].
    by injection Hq as -> ->.
  - rewrite Encode_three. cbn zeta. rewrite decode_quad. cbn zeta.
    rewrite !sextet_valid by lia. cbn [orb].
    rewrite !sextet_decodeMap by lia.
    pose proof (quantum_of_three a b c) as Hq. cbn zeta in Hq.
    rewrite Hq, IH. reflexivity.
Qed.

Lemma newlineFilter_Encode (s : string) :
  base64.newlineFilter (base64.Encode s) = base64.Encode s.
Proof.
  induction s as [|a|a b|a b c rest IH] using string_ind3.
  - reflexivity.
  - cbn [base64.Encode base64.newlineFilter].
    by rewrite !sextet_not_newline by lia.
  - cbn [base64.Encode base64.newlineFilter].
    by rewrite !sextet_not_newline by lia.
  - rewrite Encode_three. cbn zeta. cbn [base64.newlineFilter].
    by rewrite !sextet_not_newline, IH by lia.
Qed.

Lemma DecodeStream_Encode (s : string) :
  base64.DecodeStream (base64.Encode s) = (s, None).
Proof. unfold base64.DecodeStream. by rewrite newlineFilter_Encode, decode_Encode. Qed.

(** The streaming encoder. *)

Lemma groups_three (a b c : ascii) (rest : string) :
  base64.groups (String a (String b (String c rest)))
  = let val := base64.val3 a b c in
    let '(out, held) := base64.groups rest in
    (String (base64.sextet val 18) (String (base64.sextet val 12)
       (String (base64.sextet val 6) (String (base64.sextet val 0) out))), held).
Proof. reflexivity. Qed.

Lemma groups_app (s t : string) :
  base64.groups (s +:+ t)
  = let '(out, held) := base64.groups s in
    let '(out', held') := base64.groups (held +:+ t) in
    (out +:+ out', held').
Proof.
  induction s as [|a|a b|a b c rest IH] using string_ind3.
  - cbn [base64.groups]. rewrite !app_nil_l. by destruct (base64.groups t).
  - cbn [base64.groups]. by destruct (base64.groups _).
  - cbn [base64.groups]. by destruct (base64.groups _).
  - rewrite !app_cons, !groups_three. cbn zeta. rewrite IH.
    destruct (base64.groups rest) as [out held].
    by destruct (base64.groups (held +:+ t)) as [out' held'].
Qed.

Lemma Encode_groups (s : string) :
  base64.Encode s
  = let '(out, held) := base64.groups s in out +:+ base64.Encode held.
Proof.
  induction s as [|a|a b|a b c rest IH] using string_ind3; try reflexivity.
  rewrite Encode_three, groups_three. cbn zeta. rewrite IH.
  by destruct (base64.groups rest) as [out held].
Qed.

Lemma Encode_app_groups (s t : string) :
  base64.Encode (s +:+ t)
  = let '(out, held) := base64.groups s in out +:+ base64.Encode (held +:+ t).
Proof.
  rewrite Encode_groups, groups_app.
  destruct (base64.groups s) as [out held].
  rewrite (Encode_groups (held +:+ t)).
  destruct (base64.groups (held +:+ t)) as [out' held'].
  by rewrite app_assoc.
Qed.

(** Written in chunks and closed, the encoder produces the encoding of the
    concatenation of the chunks. *)
Lemma encoder_stream_Encode (ps : list string) (buf : string) :
  base64.encoder_stream buf ps = base64.Encode (buf +:+ flatten ps).
Proof.
  revert buf. induction ps as [|p ps IH]; intros buf.
  - cbn [base64.encoder_stream flatten]. by rewrite app_nil_r.
  - cbn [base64.encoder_stream flatten]. unfold base64.encoder_Write.
    rewrite <- app_assoc, Encode_app_groups.
    destruct (base64.groups (buf +:+ p)) as [out held]. by rewrite IH.
Qed.

(** ** The transport's response writer *)

Lemma response_WriteHeader_header (code : Z) (r : response) :
  rw_header (response_WriteHeader code r) = rw_header r.
Proof. unfold response_WriteHeader. by destruct (rw_sent r). Qed.

Lemma response_WriteHeader_body (code : Z) (r : response) :
  rw_body (response_WriteHeader code r) = rw_body r.
Proof. unfold response_WriteHeader. by destruct (rw_sent r). Qed.

Lemma response_WriteHeader_sent (code : Z) (r : response) :
  rw_sent (response_WriteHeader code r)
  = match rw_sent r with
    | Some sent => Some sent
    | None => Some (code, rw_header r)
    end.
Proof. unfold response_WriteHeader. by destruct (rw_sent r) eqn:E. Qed.

Lemma response_Write_header (p : string) (r : response) :
  rw_header (response_Write p r) = rw_header r.
Proof. unfold response_Write. cbn. apply response_WriteHeader_header. Qed.

Lemma response_Write_body (p : string) (r : response) :
  rw_body (response_Write p r) = rw_body r +:+ p.
Proof. unfold response_Write. cbn. by rewrite response_WriteHeader_body. Qed.

Lemma response_Write_sent (p : string) (r : response) :
  rw_sent (response_Write p r) = rw_sent (response_WriteHeader StatusOK r).
Proof. reflexivity. Qed.

Lemma response_Flush_header (r : response) :
  rw_header (response_Flush r) = rw_header r.
Proof. unfold response_Flush. cbn. apply response_WriteHeader_header. Qed.

Lemma response_Flush_body (r : response) :
  rw_body (response_Flush r) = rw_body r.
Proof. unfold response_Flush. cbn. apply response_WriteHeader_body. Qed.

(** ** The response writer of the bridge *)

Lemma exec_contentType (w : gRPCWebResponseWriter) (c : call) :
  contentType (exec w c) = contentType w.
Proof.
  destruct c; cbn; try done.
  - unfold gRPCWebResponseWriter_Write.
    destruct (encoder w) as [e|].
    + by destruct (Writer_Write e p (wrapped w)).
    + by destruct (Writer_Write _ p _).
  - unfold gRPCWebResponseWriter_Flush.
    by destruct (encoder w) as [[|buf]|].
Qed.

Lemma Write_contentType (p : string) (w : gRPCWebResponseWriter) :
  contentType (gRPCWebResponseWriter_Write p w) = contentType w.
Proof. exact (exec_contentType w (CallWrite p)). Qed.

Lemma run_contentType (cs : list call) (w : gRPCWebResponseWriter) :
  contentType (run cs w) = contentType w.
Proof.
  revert w. induction cs as [|c cs IH]; intros w; [done|].
  unfold run in *. cbn [foldl]. by rewrite IH, exec_contentType.
Qed.

Lemma run_snoc `{ResponseWriter W} (cs : list call) (c : call) (w : W) :
  run (cs ++ [c]) w = exec (run cs w) c.
Proof. unfold run. by rewrite foldl_app. Qed.

(** [WriteHeader] (re-)applies the content type before the status line is
    handed to the transport. *)
Lemma WriteHeader_content_type (code : Z) (w : gRPCWebResponseWriter) :
  let w' := gRPCWebResponseWriter_WriteHeader code w in
  http.Get (gRPCWebResponseWriter_Header w') "content-type" = contentType w
  ∧ encoder w' = encoder w
  ∧ rw_body (wrapped w') = rw_body (wrapped w)
  ∧ rw_sent (wrapped w')
    = match rw_sent (wrapped w) with
      | Some sent => Some sent
      | None => Some (code, http.Set_ (rw_header (wrapped w)) "content-type"
                              (contentType w))
      end.
Proof.
  cbn zeta. unfold gRPCWebResponseWriter_WriteHeader, gRPCWebResponseWriter_Header.
  cbn [wrapped encoder]. rewrite response_WriteHeader_header,
    response_WriteHeader_body, response_WriteHeader_sent.
  cbn. split_and!; try done. apply Get_Set_eq.
Qed.

(** The first [Write] applies the content type and installs the encoder. *)
Lemma first_Write (p : string) (w : gRPCWebResponseWriter) :
  encoder w = None →
  let hdr := http.Set_ (rw_header (wrapped w)) "content-type" (contentType w) in
  let sent := match rw_sent (wrapped w) with
              | Some sent => Some sent
              | None => Some (StatusOK, hdr)
              end in
  let w' := gRPCWebResponseWriter_Write p w in
  gRPCWebResponseWriter_Header w' = hdr
  ∧ if bool_decide (contentType w = ContentTypeGRPCWebTextProto)
    then encoder w' = Some (Base64Encoder (base64.groups p).2)
         ∧ rw_body (wrapped w') = rw_body (wrapped w) +:+ (base64.groups p).1
         ∧ rw_sent (wrapped w')
           = if bool_decide ((base64.groups p).1 = EmptyString)
             then rw_sent (wrapped w) else sent
    else encoder w' = Some WrappedWriter
         ∧ rw_body (wrapped w') = rw_body (wrapped w) +:+ p
         ∧ rw_sent (wrapped w') = sent.
Proof.
  intros He. cbn zeta.
  unfold gRPCWebResponseWriter_Write, gRPCWebResponseWriter_Header. rewrite He.
  case_bool_decide as Hct.
  - unfold Writer_Write, base64.encoder_Write. rewrite app_nil_l.
    destruct (base64.groups p) as [out held]. cbn [fst snd wrapped encoder].
    case_bool_decide as Hout; cbn.
    + subst out. by rewrite app_nil_r.
    + by rewrite response_WriteHeader_header, response_WriteHeader_body,
        response_WriteHeader_sent.
  - cbn. by rewrite response_WriteHeader_header, response_WriteHeader_body,
      response_WriteHeader_sent.
Qed.

(** ** The content type and the encoding of the response *)

Lemma Flush_text_body (w : gRPCWebResponseWriter) (buf : string) :
  encoder w = Some (Base64Encoder buf) →
  rw_body (wrapped (gRPCWebResponseWriter_Flush w))
  = rw_body (wrapped w) +:+ base64.Encode buf
  ∧ encoder (gRPCWebResponseWriter_Flush w) = None.
Proof.
  intros He. unfold gRPCWebResponseWriter_Flush. rewrite He. cbn [wrapped encoder].
  rewrite response_Flush_body. split; [|done].
  case_bool_decide as Hbuf.
  - subst buf. by rewrite app_nil_r.
  - by rewrite response_Write_body.
Qed.

(** C6: the response is base64 text exactly when the accept header is one of
    the two text tokens: the first write followed by a flush puts the base64
    encoding of the bytes on the wire for a text accept header and the bytes
    themselves otherwise; the content type and the body of the request have
    no part in the choice. *)
Theorem output_mode_follows_accept (req : Request) (resp : response) (p : string) :
  let accept := http.Get (Header req) "accept" in
  let w := gRPCWebResponseWriter_Write p (mkWriter resp None (convert req).2) in
  (is_text accept ↔ ∃ buf, encoder w = Some (Base64Encoder buf))
  ∧ (¬ is_text accept ↔ encoder w = Some WrappedWriter)
  ∧ (is_text accept →
     rw_body (wrapped (gRPCWebResponseWriter_Flush w))
     = rw_body resp +:+ base64.Encode p)
  ∧ (¬ is_text accept →
     rw_body (wrapped (gRPCWebResponseWriter_Flush w)) = rw_body resp +:+ p)
  ∧ (∀ major minor ct body,
       (convert (mkRequest major minor (http.Set_ (Header req) "content-type" ct) body)).2
       = (convert req).2).
Proof.
  intros accept w.
  pose proof (first_Write p (mkWriter resp None (convert req).2) eq_refl) as Hw.
  cbn zeta in Hw. destruct Hw as [_ Hw]. fold w in Hw. cbn [contentType wrapped] in Hw.
  rewrite convert_contentType in Hw. fold accept in Hw.
  assert (Hind : ∀ major minor ct body,
    (convert (mkRequest major minor (http.Set_ (Header req) "content-type" ct) body)).2
    = (convert req).2).
  { intros. rewrite !convert_contentType. cbn [Header].
    by rewrite Get_Set_ne by done. }
  destruct (decide (is_text accept)) as [Ht|Ht].
  - rewrite (bool_decide_eq_true_2 _ Ht) in Hw.
    rewrite (bool_decide_eq_true_2 _ eq_refl) in Hw. destruct Hw as (He & Hb & _).
    split_and!; try done.
    + split; [by eauto|done].
    + split; [done|]. by rewrite He.
    + intros _. destruct (Flush_text_body w _ He) as [-> _].
      rewrite Hb, app_assoc. f_equal.
      rewrite (Encode_groups p). by destruct (base64.groups p).
  - rewrite (bool_decide_eq_false_2 _ Ht) in Hw.
    rewrite bool_decide_eq_false_2 in Hw by done. destruct Hw as (He & Hb & _).
    split_and!; try done.
    + split; [done|]. intros [buf Hbuf]. by rewrite He in Hbuf.
    + intros _. unfold gRPCWebResponseWriter_Flush. rewrite He. cbn [wrapped].
      by rewrite response_Flush_body.
Qed.

(** C10: the content type the bridge sets on the response is
    application/grpc-web-text+proto for a text accept header and
    application/grpc-web+proto otherwise, never a generic variant, whatever
    the handler did before: both [WriteHeader] and the first [Write] set
    exactly this value. *)
Theorem response_content_type_explicit (req : Request) :
  let accept := http.Get (Header req) "accept" in
  let ct := (convert req).2 in
  (is_text accept → ct = "application/grpc-web-text+proto")
  ∧ (¬ is_text accept → ct = "application/grpc-web+proto")
  ∧ ct ≠ "application/grpc-web" ∧ ct ≠ "application/grpc-web-text"
  ∧ (∀ (resp : response) (cs : list call) (code : Z) (p : string),
       let w := run cs (mkWriter resp None ct) in
       http.Get (gRPCWebResponseWriter_Header
                   (gRPCWebResponseWriter_WriteHeader code w)) "content-type" = ct
       ∧ (encoder w = None →
          http.Get (gRPCWebResponseWriter_Header
                      (gRPCWebResponseWriter_Write p w)) "content-type" = ct)).
Proof.
  intros accept ct. subst ct. rewrite convert_contentType. fold accept.
  split_and!.
  - intros Ht. by rewrite bool_decide_eq_true_2.
  - intros Ht. by rewrite bool_decide_eq_false_2.
  - by case_bool_decide.
  - by case_bool_decide.
  - intros resp cs code p w.
    assert (Hct : contentType w = (if bool_decide (is_text accept)
                                   then ContentTypeGRPCWebTextProto
                                   else ContentTypeGRPCWebProto))
      by (subst w; by rewrite run_contentType).
    split.
    + destruct (WriteHeader_content_type code w) as [-> _]. done.
    + intros He. destruct (first_Write p w He) as [-> _].
      by rewrite Get_Set_eq.
Qed.

(** ** Status codes before the first write *)

Lemma before_write_step (ct : string) (w : gRPCWebResponseWriter) (c : call) :
  before_write c = true →
  encoder w = None → contentType w = ct →
  (∀ status hdr, rw_sent (wrapped w) = Some (status, hdr) →
                 http.Get hdr "content-type" = ct) →
  let w' := exec w c in
  encoder w' = None ∧ contentType w' = ct
  ∧ (∀ status hdr, rw_sent (wrapped w') = Some (status, hdr) →
                   http.Get hdr "content-type" = ct)
  ∧ (is_Some (rw_sent (wrapped w)) → is_Some (rw_sent (wrapped w')))
  ∧ (∀ code, c = CallWriteHeader code → is_Some (rw_sent (wrapped w'))).
Proof.
  intros Hc He Hct Hsent. cbn zeta.
  destruct c as [p|code| |k v|k v|k|k vs]; try discriminate Hc; cbn [exec].
  - cbn [rwWriteHeader gRPCWebResponseWriter_ResponseWriter].
    destruct (WriteHeader_content_type code w) as (_ & He' & _ & Hs).
    rewrite He', Hs. unfold gRPCWebResponseWriter_WriteHeader at 1. cbn [contentType].
    split_and!; try done.
    + intros status hdr. destruct (rw_sent (wrapped w)) as [[st0 h0]|] eqn:E.
      * intros [= <- <-]. by eapply Hsent.
      * intros [= <- <-]. subst ct. apply Get_Set_eq.
    + by destruct (rw_sent (wrapped w)).
    + intros _ _. by destruct (rw_sent (wrapped w)).
  - cbn. split_and!; by eauto.
  - cbn. split_and!; by eauto.
  - cbn. split_and!; by eauto.
  - cbn. split_and!; by eauto.
Qed.

Lemma before_write_run (ct : string) (resp : response) (pre : list call) :
  rw_sent resp = None →
  forallb before_write pre = true →
  let w := run pre (mkWriter resp None ct) in
  encoder w = None ∧ contentType w = ct
  ∧ (∀ status hdr, rw_sent (wrapped w) = Some (status, hdr) →
                   http.Get hdr "content-type" = ct)
  ∧ (∀ code, CallWriteHeader code ∈ pre → is_Some (rw_sent (wrapped w))).
Proof.
  intros Hresp. induction pre as [|c pre IH] using rev_ind; intros Hpre.
  - cbn. split_and!; try done.
    + intros status hdr. by rewrite Hresp.
    + intros code Hin. by apply elem_of_nil in Hin.
  - rewrite forallb_app in Hpre. apply andb_true_iff in Hpre as [Hpre Hc].
    cbn in Hc. rewrite andb_true_r in Hc.
    destruct (IH Hpre) as (He & Hct & Hsent & Hcode). clear IH.
    cbn zeta. rewrite run_snoc.
    destruct (before_write_step ct _ c Hc He Hct Hsent) as (He' & Hct' & Hsent' & Hmono & Hnew).
    split_and!; try done.
    intros code [Hin | Hin]%elem_of_app.
    + apply Hmono. by eapply Hcode.
    + apply list_elem_of_singleton in Hin. by eapply Hnew.
Qed.

(** C8: however often the handler sets the status code (and whatever it does
    to the header map) before its first body write, the content-type header
    is the chosen gRPC-Web token when the first bytes are written, and so is
    the content type of the header block sent to the client: every
    [WriteHeader] re-applies it first. *)
Theorem content_type_survives_status (resp : response) (ct : string)
    (pre : list call) (p : string) :
  rw_sent resp = None →
  forallb before_write pre = true →
  let w := run (pre ++ [CallWrite p]) (mkWriter resp None ct) in
  http.Get (gRPCWebResponseWriter_Header w) "content-type" = ct
  ∧ (∀ status hdr, rw_sent (wrapped w) = Some (status, hdr) →
                   http.Get hdr "content-type" = ct)
  ∧ (∀ code, CallWriteHeader code ∈ pre → is_Some (rw_sent (wrapped w)))
  ∧ (∀ code (w' : gRPCWebResponseWriter),
       http.Get (gRPCWebResponseWriter_Header
                   (gRPCWebResponseWriter_WriteHeader code w')) "content-type"
       = contentType w').
Proof.
  intros Hresp Hpre. cbn zeta. rewrite run_snoc.
  destruct (before_write_run ct resp pre Hresp Hpre) as (He & Hct & Hsent & Hcode).
  set (w0 := run pre (mkWriter resp None ct)) in *.
  cbn [exec rwWrite gRPCWebResponseWriter_ResponseWriter].
  pose proof (first_Write p w0 He) as Hw. cbn zeta in Hw.
  destruct Hw as [Hhdr Hw]. rewrite Hct in Hhdr, Hw.
  assert (Hs' : ∀ status hdr,
    match rw_sent (wrapped w0) with
    | Some sent => Some sent
    | None => Some (StatusOK, http.Set_ (rw_header (wrapped w0)) "content-type" ct)
    end = Some (status, hdr) → http.Get hdr "content-type" = ct).
  { intros status hdr. destruct (rw_sent (wrapped w0)) as [[st0 h0]|] eqn:E.
    - intros [= <- <-]. by eapply Hsent.
    - intros [= <- <-]. apply Get_Set_eq. }
  split_and!.
  - rewrite Hhdr. apply Get_Set_eq.
  - intros status hdr. case_bool_decide; destruct Hw as (_ & _ & ->).
    + case_bool_decide; [by apply Hsent | by apply Hs'].
    + by apply Hs'.
  - intros code Hin. specialize (Hcode code Hin).
    destruct Hcode as [sent Hsome].
    case_bool_decide; destruct Hw as (_ & _ & ->); rewrite ?Hsome;
      try case_bool_decide; by rewrite ?Hsome.
  - intros code w'. by destruct (WriteHeader_content_type code w') as [-> _].
Qed.

(** ** Writes in text and in binary mode *)

Lemma Write_text_mode (p : string) (w : gRPCWebResponseWriter) :
  contentType w = ContentTypeGRPCWebTextProto →
  encoder w ≠ Some WrappedWriter →
  let w' := gRPCWebResponseWriter_Write p w in
  encoder w' = Some (Base64Encoder (base64.groups (pending w +:+ p)).2)
  ∧ rw_body (wrapped w')
    = rw_body (wrapped w) +:+ (base64.groups (pending w +:+ p)).1.
Proof.
  intros Hct He. cbn zeta. unfold pending.
  destruct (encoder w) as [[|buf]|] eqn:Hw; [done| |].
  - unfold gRPCWebResponseWriter_Write. rewrite Hw.
    unfold Writer_Write, base64.encoder_Write.
    destruct (base64.groups (buf +:+ p)) as [out held]. cbn [fst snd wrapped encoder].
    split; [done|]. case_bool_decide as Hout.
    + subst out. by rewrite app_nil_r.
    + by rewrite response_Write_body.
  - pose proof (first_Write p w Hw) as Hf. cbn zeta in Hf.
    rewrite (bool_decide_eq_true_2 _ Hct) in Hf. rewrite app_nil_l.
    by destruct Hf as (_ & ? & ? & _).
Qed.

Lemma Write_binary_mode (p : string) (w : gRPCWebResponseWriter) :
  contentType w ≠ ContentTypeGRPCWebTextProto →
  (∀ buf, encoder w ≠ Some (Base64Encoder buf)) →
  let w' := gRPCWebResponseWriter_Write p w in
  encoder w' = Some WrappedWriter
  ∧ rw_body (wrapped w') = rw_body (wrapped w) +:+ p.
Proof.
  intros Hct He. cbn zeta.
  destruct (encoder w) as [[|buf]|] eqn:Hw; [|by destruct (He buf)|].
  - unfold gRPCWebResponseWriter_Write. rewrite Hw. cbn.
    by rewrite response_WriteHeader_body.
  - pose proof (first_Write p w Hw) as Hf. cbn zeta in Hf.
    rewrite (bool_decide_eq_false_2 _ Hct) in Hf.
    by destruct Hf as (_ & ? & ? & _).
Qed.

(** Writes in text mode followed by a flush put on the wire what the
    streaming encoder makes of the chunks. *)
Lemma text_writes_flush (ps : list string) (w : gRPCWebResponseWriter) :
  contentType w = ContentTypeGRPCWebTextProto →
  encoder w ≠ Some WrappedWriter →
  rw_body (wrapped (gRPCWebResponseWriter_Flush (run (map CallWrite ps) w)))
  = rw_body (wrapped w) +:+ base64.encoder_stream (pending w) ps.
Proof.
  revert w. induction ps as [|p ps IH]; intros w Hct He.
  - cbn [map]. unfold run. cbn [foldl base64.encoder_stream]. unfold pending.
    destruct (encoder w) as [[|buf]|] eqn:Hw; [done| |].
    + by destruct (Flush_text_body w buf Hw) as [-> _].
    + unfold gRPCWebResponseWriter_Flush. rewrite Hw. cbn [wrapped].
      rewrite response_Flush_body. by rewrite app_nil_r.
  - cbn [map]. unfold run in *. cbn [foldl exec rwWrite gRPCWebResponseWriter_ResponseWriter].
    destruct (Write_text_mode p w Hct He) as [He' Hb'].
    rewrite IH.
    + rewrite Hb', app_assoc. f_equal.
      cbn [base64.encoder_stream]. unfold base64.encoder_Write, pending at 2.
      rewrite He'. by destruct (base64.groups (pending w +:+ p)).
    + by rewrite Write_contentType.
    + by rewrite He'.
Qed.

(** C9: what the base64 encoder of the response path makes of any bytes,
    written in any chunks and completed by a flush, is decoded by the base64
    decoder of the request path to the same bytes, without an error. *)
Theorem base64_round_trip (ps : list string) (resp : response) (fd : nat) :
  let w := gRPCWebResponseWriter_Flush
             (run (map CallWrite ps) (mkWriter resp None ContentTypeGRPCWebTextProto)) in
  let wire := base64.encoder_stream EmptyString ps in
  rw_body (wrapped w) = rw_body resp +:+ wire
  ∧ base64.DecodeStream wire = (flatten ps, None)
  ∧ ReadCloser_ReadAll
      (bodyCloser (NewDecoder (AsReader (TransportBody fd wire)))
                  (TransportBody fd wire))
    = (flatten ps, None).
Proof.
  cbn zeta.
  assert (Hdec : base64.DecodeStream (base64.encoder_stream EmptyString ps)
                 = (flatten ps, None)).
  { rewrite encoder_stream_Encode, app_nil_l. apply DecodeStream_Encode. }
  split_and!.
  - by rewrite text_writes_flush.
  - exact Hdec.
  - cbn [ReadCloser_ReadAll Reader_ReadAll]. by rewrite Hdec.
Qed.

(** ** The trailer block *)

Lemma collect_trailers_fold (h : http.Header) (decl : list string)
    (acc : http.Header) (k : string) :
  let m := foldl (λ trailers trailer,
                    let field := http.Get h trailer in
                    if bool_decide (field = EmptyString) then trailers
                    else http.Set_ trailers trailer field) acc decl in
  (trailer_named h decl k → m !! k = Some [hd EmptyString (http.values h k)])
  ∧ (¬ trailer_named h decl k → m !! k = acc !! k).
Proof.
  revert acc. unfold trailer_named.
  induction decl as [|t decl IH]; intros acc; cbn zeta.
  - rewrite Exists_nil. cbn [foldl]. tauto.
  - cbn [foldl]. rewrite Exists_cons.
    match goal with |- context [foldl _ ?a decl] => specialize (IH a) end.
    cbn zeta in IH. destruct IH as [IHin IHout].
    destruct (decide (Exists (λ t0, textproto.CanonicalMIMEHeaderKey t0 = k
                                    ∧ http.Get h t0 ≠ EmptyString) decl))
      as [Hrest|Hrest].
    { split; [by auto|tauto]. }
    rewrite (IHout Hrest). case_bool_decide as Hfield.
    + split; [tauto|done].
    + unfold http.Set_.
      destruct (decide (textproto.CanonicalMIMEHeaderKey t = k)) as [Hk|Hk].
      * rewrite Hk, lookup_insert_eq. split; [|tauto].
        intros _. by rewrite Get_lookup, Hk.
      * rewrite lookup_insert_ne by done. split; [tauto|done].
Qed.

Lemma collect_trailers_lookup (h : http.Header) (decl : list string) (k : string) :
  (trailer_named h decl k →
   collect_trailers h decl !! k = Some [hd EmptyString (http.values h k)])
  ∧ (¬ trailer_named h decl k → collect_trailers h decl !! k = None).
Proof.
  destruct (collect_trailers_fold h decl ∅ k) as [Hin Hout].
  split; [exact Hin|]. intros Hn. unfold collect_trailers.
  etrans; [exact (Hout Hn)|]. apply lookup_empty.
Qed.

Lemma trailer_named_dec (h : http.Header) (decl : list string) (k : string) :
  trailer_named h decl k ∨ ¬ trailer_named h decl k.
Proof.
  unfold trailer_named.
  destruct (decide (Exists (λ t, textproto.CanonicalMIMEHeaderKey t = k
                                 ∧ http.Get h t ≠ EmptyString) decl)); eauto.
Qed.

Lemma collect_trailers_is_Some (h : http.Header) (decl : list string) (k : string) :
  is_Some (collect_trailers h decl !! k) ↔ trailer_named h decl k.
Proof.
  destruct (collect_trailers_lookup h decl k) as [Hin Hout].
  destruct (trailer_named_dec h decl k) as [Hn|Hn].
  - rewrite (Hin Hn). split; [done|by eauto].
  - rewrite (Hout Hn). split; [by intros [? ?]|done].
Qed.

(** The keys of a header map in the order of [Header.Write]. *)
Lemma sortedKeys_spec (m : http.Header) :
  StronglySorted String.le (sortedKeys m)
  ∧ NoDup (sortedKeys m)
  ∧ ∀ k, k ∈ sortedKeys m ↔ is_Some (m !! k).
Proof.
  unfold sortedKeys. split_and!.
  - apply StronglySorted_merge_sort; apply _.
  - rewrite merge_sort_Permutation. apply NoDup_fst_map_to_list.
  - intros k. rewrite merge_sort_Permutation, list_elem_of_fmap. split.
    + intros [[k' v] [-> Hin]]. apply elem_of_map_to_list in Hin. by eauto.
    + intros [v Hv]. exists (k, v). split; [done|]. by apply elem_of_map_to_list.
Qed.

Lemma StronglySorted_filter {A} (R : relation A) (P : A → Prop)
    `{∀ x, Decision (P x)} (l : list A) :
  StronglySorted R l → StronglySorted R (filter P l).
Proof.
  induction 1 as [|x l Hl IH Hx]; [constructor|].
  rewrite filter_cons. destruct (decide (P x)); [|done].
  constructor; [done|].
  apply Forall_forall. intros y [_ Hy]%list_elem_of_filter.
  rewrite Forall_forall in Hx. by apply Hx.
Qed.

Lemma Header_Write_lines (m : http.Header) (v : string → string) :
  (∀ k, is_Some (m !! k) → m !! k = Some [v k]) →
  Header_Write m
  = flatten (map (λ k, header_line k (v k))
                 (filter (λ k, ValidHeaderFieldName k) (sortedKeys m))).
Proof.
  intros Hm. unfold Header_Write.
  assert (Hkeys : ∀ k, k ∈ sortedKeys m → http.values m k = [v k]).
  { intros k Hk. apply sortedKeys_spec in Hk. unfold http.values.
    by rewrite (Hm k Hk). }
  induction (sortedKeys m) as [|k ks IH]; [done|].
  cbn [map flatten]. rewrite filter_cons.
  rewrite IH by (intros k' Hk'; apply Hkeys; by right).
  rewrite (Hkeys k) by left.
  destruct (decide (ValidHeaderFieldName k)) as [Hv|Hv].
  - apply Is_true_true in Hv. rewrite Hv. cbn [map flatten].
    by rewrite app_nil_r.
  - apply Is_true_false in Hv. by rewrite Hv.
Qed.

Lemma declared_trailers_list (l : list (string * list string)) :
  (∃ key, (key, declared_trailers l) ∈ l ∧ strings.ToLower key = headerTrailer)
  ∨ (declared_trailers l = []
     ∧ ∀ key val, (key, val) ∈ l → strings.ToLower key ≠ headerTrailer).
Proof.
  induction l as [|[key val] l IH]; cbn [declared_trailers].
  - right. split; [done|]. intros key val Hin. by apply elem_of_nil in Hin.
  - case_bool_decide as Hkey.
    + left. exists key. split; [by left|done].
    + destruct IH as [[key' [Hin Hlow]]|[Hnil Hnone]].
      * left. exists key'. split; [by right|done].
      * right. split; [done|]. intros key' val' [[= -> ->]|Hin]%elem_of_cons; eauto.
Qed.

(** The declared trailer names are the values of a header whose name is
    "trailer" in lower case, if there is one. *)
Lemma declared_trailers_spec `{RangeOrder} (h : http.Header) :
  let decl := declared_trailers (range_of h) in
  (∃ key, strings.ToLower key = "trailer" ∧ h !! key = Some decl)
  ∨ (decl = [] ∧ ∀ key, strings.ToLower key = "trailer" → h !! key = None).
Proof.
  cbn zeta. destruct (declared_trailers_list (range_of h)) as [[key [Hin Hlow]]|[Hnil Hnone]].
  - left. exists key. split; [done|].
    generalize dependent (declared_trailers (range_of h)). intros decl Hin.
    rewrite range_of_perm in Hin. by apply elem_of_map_to_list in Hin.
  - right. split; [done|]. intros key Hlow.
    destruct (h !! key) as [val|] eqn:Hval; [|done].
    apply elem_of_map_to_list in Hval. rewrite <- range_of_perm in Hval.
    by destruct (Hnone key val Hval).
Qed.

(** C7, as the specification states it, fails: the gRPC server declares
    Grpc-Status before Grpc-Message, and the block has the line of
    Grpc-Message first (as the test suite expects). *)
Lemma trailer_block_not_in_declared_order :
  declared_trailers (range_of failed_call_header) = ["Grpc-Status"; "Grpc-Message"]
  ∧ trailer_block failed_call_header
    = "Grpc-Message: unexpected EOF" +:+ CRLF +:+ "Grpc-Status: 13" +:+ CRLF
  ∧ trailer_block_in_declared_order failed_call_header
      (declared_trailers (range_of failed_call_header))
    = "Grpc-Status: 13" +:+ CRLF +:+ "Grpc-Message: unexpected EOF" +:+ CRLF
  ∧ trailer_block failed_call_header
    ≠ trailer_block_in_declared_order failed_call_header
        (declared_trailers (range_of failed_call_header)).
Proof. split_and!; [by vm_compute..|]. vm_compute. discriminate. Qed.

(** C7, amended: the trailer block holds one line for each distinct
    canonical name of a declared trailer whose header has a non-empty first
    value and which is a valid field name, made of the canonical name, a
    colon and a space, that value (CR and LF replaced by spaces, surrounding
    white space trimmed) and CRLF; the lines are in ascending byte order of
    the names, not in the order of declaration; declared names whose header
    is missing or empty give no line. *)
Theorem trailer_block_lines `{RangeOrder} (h : http.Header) :
  let decl := declared_trailers (range_of h) in
  ((∃ key, strings.ToLower key = "trailer" ∧ h !! key = Some decl)
   ∨ (decl = [] ∧ ∀ key, strings.ToLower key = "trailer" → h !! key = None))
  ∧ ∃ names : list string,
      trailer_block h
      = flatten (map (λ k, header_line k (hd EmptyString (http.values h k))) names)
      ∧ StronglySorted String.le names
      ∧ NoDup names
      ∧ ∀ k, k ∈ names ↔ ValidHeaderFieldName k ∧ trailer_named h decl k.
Proof.
  intros decl. split; [apply declared_trailers_spec|].
  set (m := collect_trailers h decl).
  exists (filter (λ k, ValidHeaderFieldName k) (sortedKeys m)).
  destruct (sortedKeys_spec m) as (Hsorted & Hnodup & Hkeys).
  split_and!.
  - unfold trailer_block. fold decl. fold m.
    apply Header_Write_lines. intros k Hk.
    apply collect_trailers_is_Some in Hk.
    by apply collect_trailers_lookup.
  - by apply StronglySorted_filter.
  - by apply NoDup_filter.
  - intros k. rewrite list_elem_of_filter, Hkeys.
    subst m. rewrite collect_trailers_is_Some.
    split; intros [Hv Hn]; split; try done.
Qed.

(** ** The trailer frame *)

Lemma to_uint_to_byte (x : Z) : to_uint (to_byte x) = x mod 256.
Proof.
  unfold to_uint, to_byte. change 255 with (Z.ones 8).
  rewrite Z.land_ones by lia. change (2 ^ 8) with 256.
  pose proof (Z.mod_pos_bound x 256 ltac:(lia)).
  rewrite N_ascii_embedding by lia. lia.
Qed.

Lemma lor_add_r (a b k : Z) :
  0 ≤ k → b mod 2 ^ k = 0 → 0 ≤ a < 2 ^ k → Z.lor a b = a + b.
Proof. intros. rewrite Z.lor_comm, Z.add_comm. by eapply lor_add. Qed.

(** A 32-bit word is read back from its big-endian bytes. *)
Lemma Uint32_PutUint32 (v : Z) (rest : string) :
  0 ≤ v < 2 ^ 32 →
  binary.Uint32 (binary.PutUint32 v +:+ rest) = Some v.
Proof.
  intros Hv. change (2 ^ 32) with 4294967296 in Hv.
  unfold binary.PutUint32. rewrite !app_cons. cbn [binary.Uint32].
  rewrite !to_uint_to_byte. f_equal.
  rewrite !Z.shiftl_mul_pow2, !Z.shiftr_div_pow2 by lia.
  change (2 ^ 8) with 256. change (2 ^ 16) with 65536. change (2 ^ 24) with 16777216.
  rewrite (lor_add_r (v mod 256) _ 8); change (2 ^ 8) with 256;
    [|lia|apply Z.mod_mul; lia|Z.div_mod_to_equations; lia].
  rewrite (lor_add_r (v mod 256 + _) _ 16); change (2 ^ 16) with 65536;
    [|lia|apply Z.mod_mul; lia|Z.div_mod_to_equations; lia].
  rewrite (lor_add_r (v mod 256 + _ + _) _ 24); change (2 ^ 24) with 16777216;
    [|lia|apply Z.mod_mul; lia|Z.div_mod_to_equations; lia].
  Z.div_mod_to_equations. lia.
Qed.

(** The frame of a block shorter than 4 GiB: the marker 0x80, four bytes
    that read as the length of the block, the block. *)
Lemma trailer_frame_well_formed (block : string) :
  Z.of_nat (String.length block) < 2 ^ 32 →
  ∃ len4, trailer_frame block = String "128" (len4 +:+ block)
          ∧ String.length len4 = 4%nat
          ∧ binary.Uint32 (len4 +:+ block) = Some (Z.of_nat (String.length block)).
Proof.
  intros Hlen. unfold trailer_frame.
  set (n := Z.of_nat (String.length block)) in *.
  assert (Hn : binary.uint32 n = n) by (unfold binary.uint32; apply Z.mod_small; lia).
  exists (binary.PutUint32 n). rewrite Hn. split_and!.
  - reflexivity.
  - reflexivity.
  - apply Uint32_PutUint32. lia.
Qed.

Lemma write_trailers_unfold `{RangeOrder} (w : gRPCWebResponseWriter) :
  write_trailers w
  = let buf := trailer_block (gRPCWebResponseWriter_Header w) in
    let w1 := gRPCWebResponseWriter_Write (String (to_byte (Z.shiftl 1 7)) EmptyString) w in
    let w2 := gRPCWebResponseWriter_Write
                (binary.PutUint32 (binary.uint32 (Z.of_nat (String.length buf)))) w1 in
    if bool_decide (buf = EmptyString) then w2
    else gRPCWebResponseWriter_Write buf w2.
Proof. reflexivity. Qed.

(** In binary mode the whole frame follows what the handler wrote. *)
Lemma write_trailers_binary `{RangeOrder} (w : gRPCWebResponseWriter) :
  contentType w ≠ ContentTypeGRPCWebTextProto →
  (∀ buf, encoder w ≠ Some (Base64Encoder buf)) →
  rw_body (wrapped (write_trailers w))
  = rw_body (wrapped w)
    +:+ trailer_frame (trailer_block (gRPCWebResponseWriter_Header w)).
Proof.
  intros Hct He. rewrite write_trailers_unfold. cbn zeta.
  set (buf := trailer_block _). unfold trailer_frame. fold buf.
  set (m := String (to_byte (Z.shiftl 1 7)) EmptyString).
  set (l := binary.PutUint32 _).
  destruct (Write_binary_mode m w Hct He) as [He1 Hb1].
  set (w1 := gRPCWebResponseWriter_Write m w) in *.
  assert (Hct1 : contentType w1 ≠ ContentTypeGRPCWebTextProto).
  { subst w1. by rewrite Write_contentType. }
  assert (He1' : ∀ b, encoder w1 ≠ Some (Base64Encoder b)) by (intros b; by rewrite He1).
  destruct (Write_binary_mode l w1 Hct1 He1') as [He2 Hb2].
  set (w2 := gRPCWebResponseWriter_Write l w1) in *.
  case_bool_decide as Hbuf.
  - rewrite Hb2, Hb1, Hbuf, !app_assoc. by rewrite app_nil_r.
  - assert (Hct2 : contentType w2 ≠ ContentTypeGRPCWebTextProto).
    { subst w2. by rewrite Write_contentType. }
    assert (He2' : ∀ b, encoder w2 ≠ Some (Base64Encoder b)) by (intros b; by rewrite He2).
    destruct (Write_binary_mode buf w2 Hct2 He2') as [_ Hb3].
    by rewrite Hb3, Hb2, Hb1, !app_assoc.
Qed.

(** The encoder installed agrees with the content type, whatever the
    handler calls. *)
Lemma exec_binary_encoder (w : gRPCWebResponseWriter) (c : call) :
  contentType w ≠ ContentTypeGRPCWebTextProto →
  (∀ buf, encoder w ≠ Some (Base64Encoder buf)) →
  ∀ buf, encoder (exec w c) ≠ Some (Base64Encoder buf).
Proof.
  intros Hct He buf. destruct c; cbn; try apply He.
  - by destruct (Write_binary_mode p w Hct He) as [-> _].
  - unfold gRPCWebResponseWriter_Flush.
    destruct (encoder w) as [[|b]|] eqn:Hw; cbn; done.
Qed.

Lemma exec_text_encoder (w : gRPCWebResponseWriter) (c : call) :
  contentType w = ContentTypeGRPCWebTextProto →
  encoder w ≠ Some WrappedWriter →
  encoder (exec w c) ≠ Some WrappedWriter.
Proof.
  intros Hct He. destruct c; cbn; try apply He.
  - by destruct (Write_text_mode p w Hct He) as [-> _].
  - unfold gRPCWebResponseWriter_Flush.
    by destruct (encoder w) as [[|b]|] eqn:Hw.
Qed.

Lemma run_binary_encoder (cs : list call) (w : gRPCWebResponseWriter) :
  contentType w ≠ ContentTypeGRPCWebTextProto →
  (∀ buf, encoder w ≠ Some (Base64Encoder buf)) →
  ∀ buf, encoder (run cs w) ≠ Some (Base64Encoder buf).
Proof.
  revert w. induction cs as [|c cs IH]; intros w Hct He; [done|].
  unfold run in *. cbn [foldl]. apply IH.
  - by rewrite exec_contentType.
  - by apply exec_binary_encoder.
Qed.

Lemma run_text_encoder (cs : list call) (w : gRPCWebResponseWriter) :
  contentType w = ContentTypeGRPCWebTextProto →
  encoder w ≠ Some WrappedWriter →
  encoder (run cs w) ≠ Some WrappedWriter.
Proof.
  revert w. induction cs as [|c cs IH]; intros w Hct He; [done|].
  unfold run in *. cbn [foldl]. apply IH.
  - by rewrite exec_contentType.
  - by apply exec_text_encoder.
Qed.

(** In text mode a write continues the group left open by the writes
    before it. *)
Lemma Write_text_absorb (x p : string) (w wx : gRPCWebResponseWriter) :
  contentType wx = ContentTypeGRPCWebTextProto →
  encoder wx = Some (Base64Encoder (base64.groups (pending w +:+ x)).2) →
  rw_body (wrapped wx) = rw_body (wrapped w) +:+ (base64.groups (pending w +:+ x)).1 →
  let wx' := gRPCWebResponseWriter_Write p wx in
  contentType wx' = ContentTypeGRPCWebTextProto
  ∧ encoder wx' = Some (Base64Encoder (base64.groups (pending w +:+ x +:+ p)).2)
  ∧ rw_body (wrapped wx')
    = rw_body (wrapped w) +:+ (base64.groups (pending w +:+ x +:+ p)).1.
Proof.
  intros Hct He Hb. cbn zeta.
  assert (Hne : encoder wx ≠ Some WrappedWriter) by (by rewrite He).
  destruct (Write_text_mode p wx Hct Hne) as [He' Hb'].
  assert (Hp : pending wx = (base64.groups (pending w +:+ x)).2)
    by (unfold pending at 1; by rewrite He).
  rewrite Write_contentType, He', Hb', Hb, Hp.
  rewrite <- (app_assoc (pending w) x p), (groups_app (pending w +:+ x) p).
  destruct (base64.groups (pending w +:+ x)) as [o h]. cbn [fst snd].
  destruct (base64.groups (h +:+ p)) as [o' h']. cbn [fst snd].
  by rewrite app_assoc.
Qed.

(** In text mode the frame passes through the base64 encoder, which is not
    closed afterwards: the bytes of the last incomplete group stay in the
    encoder. *)
Lemma write_trailers_text `{RangeOrder} (w : gRPCWebResponseWriter) :
  contentType w = ContentTypeGRPCWebTextProto →
  encoder w ≠ Some WrappedWriter →
  let frame := trailer_frame (trailer_block (gRPCWebResponseWriter_Header w)) in
  rw_body (wrapped (write_trailers w))
  = rw_body (wrapped w) +:+ (base64.groups (pending w +:+ frame)).1
  ∧ encoder (write_trailers w)
    = Some (Base64Encoder (base64.groups (pending w +:+ frame)).2).
Proof.
  intros Hct He. rewrite write_trailers_unfold. cbn zeta.
  set (buf := trailer_block _). unfold trailer_frame. fold buf.
  set (m := String (to_byte (Z.shiftl 1 7)) EmptyString).
  set (l := binary.PutUint32 _).
  destruct (Write_text_mode m w Hct He) as [He1 Hb1].
  set (w1 := gRPCWebResponseWriter_Write m w) in *.
  assert (Hct1 : contentType w1 = ContentTypeGRPCWebTextProto)
    by (subst w1; by rewrite Write_contentType).
  destruct (Write_text_absorb m l w w1 Hct1 He1 Hb1) as (Hct2 & He2 & Hb2).
  set (w2 := gRPCWebResponseWriter_Write l w1) in *.
  case_bool_decide as Hbuf.
  - rewrite Hbuf, app_nil_r. by rewrite He2, Hb2.
  - destruct (Write_text_absorb (m +:+ l) buf w w2 Hct2 He2 Hb2) as (_ & He3 & Hb3).
    rewrite He3, Hb3. by rewrite !app_assoc.
Qed.

(** The response of the bridge to a request that accepts binary: what the
    handler wrote, then the trailer frame. *)
Lemma ServeHTTP_binary_body `{RangeOrder} (handler : Handler) (resp : response)
    (req : Request) :
  IsGRPCWebRequest req = true →
  ¬ is_text (http.Get (Header req) "accept") →
  let w := Handler_ServeHTTP handler (mkWriter resp None (convert req).2)
             (convert req).1 in
  rw_body (grpcWebHandler_ServeHTTP handler resp req)
  = rw_body (wrapped w)
    +:+ trailer_frame (trailer_block (gRPCWebResponseWriter_Header w)).
Proof.
  intros Hweb Hacc. cbn zeta.
  unfold grpcWebHandler_ServeHTTP. rewrite Hweb. cbn [negb].
  pose proof (convert_contentType req) as Hct.
  rewrite (bool_decide_eq_false_2 _ Hacc) in Hct.
  destruct (convert req) as [req' ct]. cbn [fst snd] in *. subst ct.
  apply write_trailers_binary.
  - unfold Handler_ServeHTTP. by rewrite run_contentType.
  - unfold Handler_ServeHTTP. by apply run_binary_encoder.
Qed.

(** The response of the bridge to a request that accepts text: the last
    one or two bytes of the frame are missing from the body when the frame
    does not end on a group of three bytes. *)
Lemma ServeHTTP_text_body `{RangeOrder} (handler : Handler) (resp : response)
    (req : Request) :
  IsGRPCWebRequest req = true →
  is_text (http.Get (Header req) "accept") →
  let w := Handler_ServeHTTP handler (mkWriter resp None (convert req).2)
             (convert req).1 in
  let frame := trailer_frame (trailer_block (gRPCWebResponseWriter_Header w)) in
  rw_body (grpcWebHandler_ServeHTTP handler resp req)
  = rw_body (wrapped w) +:+ (base64.groups (pending w +:+ frame)).1.
Proof.
  intros Hweb Hacc. cbn zeta.
  unfold grpcWebHandler_ServeHTTP. rewrite Hweb. cbn [negb].
  pose proof (convert_contentType req) as Hct.
  rewrite (bool_decide_eq_true_2 _ Hacc) in Hct.
  destruct (convert req) as [req' ct]. cbn [fst snd] in *. subst ct.
  apply write_trailers_text.
  - unfold Handler_ServeHTTP. by rewrite run_contentType.
  - unfold Handler_ServeHTTP. by apply run_text_encoder.
Qed.

(** ** The test suite *)

(** A text request, a text response (first request of [TestInterop]). *)
Example test_text_text :
  rw_body (RootHandler EmptyCall (λ _, []) fresh
             (web_request ContentTypeGRPCWebText ContentTypeGRPCWebText "AAAAAAA="))
  = "AAAAAAA=gAAAABBHcnBjLVN0YXR1czogMA0K".
Proof. by vm_compute. Qed.

(** A text request, a binary response (second request). *)
Example test_text_binary :
  rw_body (RootHandler EmptyCall (λ _, []) fresh
             (web_request ContentTypeGRPCWebText ContentTypeGRPCWeb "AAAAAAA="))
  = zeros 5 +:+ String "128" (zeros 3) +:+ String "016" ("Grpc-Status: 0" +:+ CRLF).
Proof. by vm_compute. Qed.

(** A text request without padding, a binary response (third request). *)
Example test_unpadded_binary :
  rw_body (RootHandler EmptyCall (λ _, []) fresh
             (web_request ContentTypeGRPCWebText ContentTypeGRPCWeb "AAAAAAA"))
  = String "128" (zeros 3)
    +:+ String "047" ("Grpc-Message: unexpected EOF" +:+ CRLF
                      +:+ "Grpc-Status: 13" +:+ CRLF).
Proof. by vm_compute. Qed.

(** A binary request, a binary response (fourth request). *)
Example test_binary_binary :
  rw_body (RootHandler EmptyCall (λ _, []) fresh
             (web_request ContentTypeGRPCWeb ContentTypeGRPCWeb (zeros 5)))
  = zeros 5 +:+ trailer_frame ("Grpc-Status: 0" +:+ CRLF).
Proof. by vm_compute. Qed.

(** A streaming call, text (seventh request): every message is a base64 run
    of its own, closed by the flush after it. *)
Example test_streaming_text :
  rw_body (RootHandler StreamingOutputCall (λ _, []) fresh
             (web_request ContentTypeGRPCWebText ContentTypeGRPCWebText
                          "AAAAAAgSAggFEgIICg=="))
  = "AAAAAAkKBxIFAAAAAAA=AAAAAA4KDBIKAAAAAAAAAAAAAA==gAAAABBHcnBjLVN0YXR1czogMA0K".
Proof. by vm_compute. Qed.

(** The same call, binary (eighth request). *)
Example test_streaming_binary :
  rw_body (RootHandler StreamingOutputCall (λ _, []) fresh
             (web_request ContentTypeGRPCWeb ContentTypeGRPCWeb
                          (bytes [0; 0; 0; 0; 8; 18; 2; 8; 5; 18; 2; 8; 10])))
  = bytes [0; 0; 0; 0; 9; 10; 7; 18; 5; 0; 0; 0; 0; 0;
           0; 0; 0; 0; 14; 10; 12; 18; 10; 0; 0; 0; 0; 0; 0; 0; 0; 0; 0;
           128; 0; 0; 0; 16]
    +:+ "Grpc-Status: 0" +:+ CRLF.
Proof. by vm_compute. Qed.

(** C1 does not hold for text responses.  The third request of the test
    suite with a text accept header: the trailer block has 47 bytes and the
    frame 52, but the body holds the base64 text of the first 51 bytes only;
    the last byte of the frame stays in the encoder, which nothing closes.
    The frame received declares 47 bytes of trailer block and has 46. *)
Theorem text_trailer_frame_truncated :
  let resp := grpcWebHandler_ServeHTTP EmptyCall fresh unpadded_text_request in
  let block := "Grpc-Message: unexpected EOF" +:+ CRLF +:+ "Grpc-Status: 13" +:+ CRLF in
  IsGRPCWebRequest unpadded_text_request = true
  ∧ String.length block = 47%nat
  ∧ trailer_frame block = String "128" (zeros 3) +:+ String "047" block
  ∧ base64.Encode (trailer_frame block)
    = "gAAAAC9HcnBjLU1lc3NhZ2U6IHVuZXhwZWN0ZWQgRU9GDQpHcnBjLVN0YXR1czogMTMNCg=="
  ∧ rw_body resp
    = "gAAAAC9HcnBjLU1lc3NhZ2U6IHVuZXhwZWN0ZWQgRU9GDQpHcnBjLVN0YXR1czogMTMN"
  ∧ base64.DecodeStream (rw_body resp)
    = (String "128" (zeros 3)
       +:+ String "047" ("Grpc-Message: unexpected EOF" +:+ CRLF
                         +:+ "Grpc-Status: 13" +:+ String "013" EmptyString),
       None).
Proof. cbn zeta. split_and!; by vm_compute. Qed.

(** ** Instances of the theorems that have hypotheses *)

Lemma handler_sees_converted_request_witness :
  IsGRPCWebRequest unpadded_text_request = true
  ∧ ProtoMajor (convert unpadded_text_request).1 = 2
  ∧ ProtoMinor (convert unpadded_text_request).1 = 0
  ∧ http.Get (Header (convert unpadded_text_request).1) "content-type"
    = "application/grpc"
  ∧ Body (convert unpadded_text_request).1
    = bodyCloser (NewDecoder (AsReader (Body unpadded_text_request)))
                 (Body unpadded_text_request).
Proof.
  assert (Hweb : IsGRPCWebRequest unpadded_text_request = true) by reflexivity.
  pose proof (handler_sees_converted_request EmptyCall fresh unpadded_text_request Hweb)
    as (_ & Hmajor & Hminor & _ & _ & _ & Hct & _ & _ & Hbody & _).
  split_and!; [exact Hweb | exact Hmajor | exact Hminor | exact Hct |].
  apply Hbody. left. reflexivity.
Defined.

Lemma content_type_survives_status_witness :
  rw_sent fresh = None
  ∧ forallb before_write
      [CallHeaderSet "Content-Type" "application/grpc";
       CallWriteHeader 200; CallWriteHeader 500] = true
  ∧ http.Get
      (gRPCWebResponseWriter_Header
         (run ([CallHeaderSet "Content-Type" "application/grpc";
                CallWriteHeader 200; CallWriteHeader 500] ++ [CallWrite (zeros 5)])
              (mkWriter fresh None ContentTypeGRPCWebProto)))
      "content-type"
    = ContentTypeGRPCWebProto.
Proof.
  split; [reflexivity|]. split; [reflexivity|].
  apply (content_type_survives_status fresh ContentTypeGRPCWebProto
           [CallHeaderSet "Content-Type" "application/grpc";
            CallWriteHeader 200; CallWriteHeader 500] (zeros 5));
    reflexivity.
Defined.


(** * Further properties of the code *)

(** ** Header names and their case *)

Lemma recase_char_lower (u : bool) (c : ascii) :
  let lower := if textproto.isUpper c then textproto.downcase c else c in
  (if u && textproto.isLower lower then textproto.upcase lower
   else if negb u && textproto.isUpper lower then textproto.downcase lower
   else lower)
  = (if u && textproto.isLower c then textproto.upcase c
     else if negb u && textproto.isUpper c then textproto.downcase c
     else c)
  ∧ textproto.validHeaderFieldByte lower = textproto.validHeaderFieldByte c.
Proof.
  destruct u, c as [[] [] [] [] [] [] [] []]; split; vm_compute; reflexivity.
Qed.

Lemma recase_ToLower (u : bool) (s : string) :
  textproto.recase u (strings.ToLower s) = textproto.recase u s.
Proof.
  revert u. induction s as [|c s IH]; intros u; [done|].
  cbn [strings.ToLower textproto.recase].
  destruct (recase_char_lower u c) as [-> _]. by rewrite IH.
Qed.

Lemma valid_ToLower (s : string) :
  textproto.all_bytes textproto.validHeaderFieldByte (strings.ToLower s)
  = textproto.all_bytes textproto.validHeaderFieldByte s.
Proof.
  induction s as [|c s IH]; [done|].
  cbn [strings.ToLower textproto.all_bytes].
  destruct (recase_char_lower true c) as [_ ->]. by rewrite IH.
Qed.

Lemma canonical_ToLower (k k' : string) :
  textproto.all_bytes textproto.validHeaderFieldByte k = true →
  strings.ToLower k = strings.ToLower k' →
  textproto.CanonicalMIMEHeaderKey k = textproto.CanonicalMIMEHeaderKey k'.
Proof.
  intros Hk Hlow. unfold textproto.CanonicalMIMEHeaderKey.
  assert (Hk' : textproto.all_bytes textproto.validHeaderFieldByte k' = true)
    by (by rewrite <- valid_ToLower, <- Hlow, valid_ToLower).
  rewrite Hk, Hk'.
  by rewrite <- (recase_ToLower true k), <- (recase_ToLower true k'), Hlow.
Qed.

(** X1: header names are matched without regard to case.  A value set under
    a name made of token bytes is found under every spelling of the name
    that differs in the case of letters only; so a request is classified by
    its content type whatever the case of the header name it was set under. *)
Theorem header_names_ignore_case (h : http.Header) (k k' v : string) :
  textproto.all_bytes textproto.validHeaderFieldByte k = true →
  strings.ToLower k = strings.ToLower k' →
  http.Get (http.Set_ h k v) k' = v
  ∧ http.Get (http.Del (http.Set_ h k v) k') k = EmptyString
  ∧ (strings.ToLower k = headerContentType →
     ∀ major minor body,
       IsGRPCWebRequest (mkRequest major minor (http.Set_ h k v) body)
       = bool_decide (v ∈ [ContentTypeGRPCWeb; ContentTypeGRPCWebProto;
                           ContentTypeGRPCWebText; ContentTypeGRPCWebTextProto])).
Proof.
  intros Hk Hlow. pose proof (canonical_ToLower k k' Hk Hlow) as Hcan.
  split_and!.
  - unfold http.Get, http.Set_, http.values. by rewrite Hcan, lookup_insert_eq.
  - unfold http.Get, http.Set_, http.Del, http.values.
    by rewrite Hcan, lookup_delete_eq.
  - intros Hct major minor body. unfold IsGRPCWebRequest. cbn [Header].
    assert (Hc : textproto.CanonicalMIMEHeaderKey k
                 = textproto.CanonicalMIMEHeaderKey headerContentType)
      by (by apply canonical_ToLower).
    unfold http.Get, http.Set_, http.values. by rewrite Hc, lookup_insert_eq.
Qed.

Lemma header_names_ignore_case_witness :
  textproto.all_bytes textproto.validHeaderFieldByte "CONTENT-Type" = true
  ∧ strings.ToLower "CONTENT-Type" = strings.ToLower "content-type"
  ∧ http.Get (http.Set_ ∅ "CONTENT-Type" "application/grpc-web") "content-type"
    = "application/grpc-web".
Proof.
  assert (Hk : textproto.all_bytes textproto.validHeaderFieldByte "CONTENT-Type" = true)
    by (vm_compute; reflexivity).
  assert (Hlow : strings.ToLower "CONTENT-Type" = strings.ToLower "content-type")
    by (vm_compute; reflexivity).
  split; [exact Hk|]. split; [exact Hlow|].
  exact (proj1 (header_names_ignore_case ∅ "CONTENT-Type" "content-type"
                  "application/grpc-web" Hk Hlow)).
Defined.

(** ** The converted request *)

(** X2: the converted request is a native gRPC request and no longer a
    gRPC-Web request, whatever the request was; a second bridge behind the
    first one therefore passes it to its handler as it is, with the writer
    it was given. *)
Theorem converted_request_is_native `{RangeOrder} (req : Request) :
  IsGRPCWebRequest (convert req).1 = false
  ∧ IsGRPCRequest (convert req).1 = true
  ∧ ∀ (handler : Handler) (resp : response),
      grpcWebHandler_ServeHTTP handler resp (convert req).1
      = Handler_ServeHTTP handler resp (convert req).1.
Proof.
  assert (Hct : http.Get (Header (convert req).1) headerContentType = ContentTypeGRPC).
  { rewrite convert_request. cbn [Header]. by header_lookup. }
  assert (Hweb : IsGRPCWebRequest (convert req).1 = false).
  { unfold IsGRPCWebRequest. rewrite Hct. reflexivity. }
  split_and!; [exact Hweb| |].
  - unfold IsGRPCRequest. rewrite Hct. by rewrite convert_request.
  - intros handler resp. unfold grpcWebHandler_ServeHTTP. by rewrite Hweb.
Qed.

(** X3: the conversion touches four headers only: every other entry of the
    header map (the accept header, metadata of the caller) reaches the
    handler as it was; content-length is gone even when it was set. *)
Theorem convert_keeps_other_headers (req : Request) (k : string) :
  k ∉ ["Content-Length"; "Content-Type"; "Te"; "Grpc-Accept-Encoding"] →
  Header (convert req).1 !! k = Header req !! k
  ∧ (∀ key, textproto.CanonicalMIMEHeaderKey key = k →
            http.Get (Header (convert req).1) key = http.Get (Header req) key)
  ∧ Header (convert req).1 !! "Content-Length" = None.
Proof.
  intros Hk. rewrite !not_elem_of_cons in Hk. destruct Hk as (H1 & H2 & H3 & H4 & _).
  rewrite convert_request. cbn [Header].
  assert (Hother : ∀ k', k' ∉ ["Content-Length"; "Content-Type"; "Te";
                               "Grpc-Accept-Encoding"] →
    <["Grpc-Accept-Encoding" := ["identity,deflate,gzip"]]>
      (<["Te" := ["trailers"]]>
         (<["Content-Type" := ["application/grpc"]]>
            (delete "Content-Length" (Header req)))) !! k' = Header req !! k').
  { intros k' Hk'. rewrite !not_elem_of_cons in Hk'.
    destruct Hk' as (? & ? & ? & ? & _).
    by rewrite !lookup_insert_ne, lookup_delete_ne. }
  assert (Hk : k ∉ ["Content-Length"; "Content-Type"; "Te"; "Grpc-Accept-Encoding"]).
  { rewrite !not_elem_of_cons. split_and!; try done. apply not_elem_of_nil. }
  split_and!.
  - by apply Hother.
  - intros key <-. unfold http.Get, http.values. by rewrite Hother.
  - by rewrite !lookup_insert_ne, lookup_delete_eq.
Qed.

Lemma convert_keeps_other_headers_witness :
  ("X-User" ∉ ["Content-Length"; "Content-Type"; "Te"; "Grpc-Accept-Encoding"])
  ∧ Header (convert binary_request).1 !! "X-User" = Some ["ada"]
  ∧ Header (convert binary_request).1 !! "Content-Length" = None.
Proof.
  assert (Hk : ("X-User" : string)
               ∉ ["Content-Length"; "Content-Type"; "Te"; "Grpc-Accept-Encoding"]).
  { rewrite !not_elem_of_cons. split_and!; try discriminate. apply not_elem_of_nil. }
  destruct (convert_keeps_other_headers binary_request "X-User" Hk) as (Hx & _ & Hl).
  split_and!; [exact Hk | | exact Hl].
  rewrite Hx. vm_compute. reflexivity.
Defined.

(** ** The body of a converted request *)

Lemma decode_ok_length (s out : string) :
  base64.decode s = (out, None) → (String.length s mod 4 = 0)%nat.
Proof.
  assert (Hall : ∀ (n : nat) s out, (String.length s ≤ n)%nat →
                 base64.decode s = (out, None) → (String.length s mod 4 = 0)%nat).
  { clear s out. induction n as [|n IH]; intros s out Hlen Hdec.
    - destruct s; [done|]. cbn in Hlen. lia.
    - destruct s as [|c0 [|c1 [|c2 [|c3 rest]]]]; try (cbn in Hdec; discriminate);
        [done|].
      rewrite decode_quad in Hdec. cbn zeta in Hdec. cbn [String.length] in *.
      destruct (_ || _); [discriminate|].
      destruct (base64.decodeMap c2 =? 255).
      { case_bool_decide; [|discriminate].
        destruct (base64.bytes_of_quantum _ _ 0 0) as [[b0 b1] b2].
        case_bool_decide as Hrest; [|discriminate]. by subst rest. }
      destruct (base64.decodeMap c3 =? 255).
      { case_bool_decide; [|discriminate].
        destruct (base64.bytes_of_quantum _ _ _ 0) as [[b0 b1] b2].
        case_bool_decide as Hrest; [|discriminate]. by subst rest. }
      destruct (base64.bytes_of_quantum _ _ _ _) as [[b0 b1] b2].
      destruct (base64.decode rest) as [o e] eqn:Hrest.
      injection Hdec as _ ->.
      assert (Hr : (String.length rest mod 4 = 0)%nat) by (eapply IH; [lia|done]).
      replace (S (S (S (S (String.length rest)))))
        with (String.length rest + 1 * 4)%nat by lia.
      by rewrite Nat.Div0.mod_add. }
  intros Hdec. by eapply Hall.
Qed.

Lemma decoder_ReadAll (fd : nat) (data : string) :
  ReadCloser_ReadAll (bodyCloser (NewDecoder (AsReader (TransportBody fd data)))
                                 (TransportBody fd data))
  = base64.DecodeStream data.
Proof.
  cbn [ReadCloser_ReadAll Reader_ReadAll].
  by destruct (base64.DecodeStream data) as [out [[]|]].
Qed.



(** X5: a text body that is not well-formed base64 is not taken for data.
    When the number of its characters other than CR and LF is not a
    multiple of four, reading the converted body ends with an error, after
    the bytes of the complete quanta. *)
Theorem malformed_text_body_fails (req : Request) (fd : nat) (data : string) :
  Body req = TransportBody fd data →
  is_text (http.Get (Header req) "content-type") →
  (String.length (base64.newlineFilter data) mod 4 ≠ 0)%nat →
  ∃ out e, ReadCloser_ReadAll (Body (convert req).1) = (out, Some e).
Proof.
  intros Hbody Ht Hlen. rewrite convert_request. cbn [Body].
  rewrite Hbody, (bool_decide_eq_true_2 _ Ht), decoder_ReadAll.
  unfold base64.DecodeStream.
  destruct (base64.decode (base64.newlineFilter data)) as [out [e|]] eqn:Hdec.
  - by eauto.
  - by apply decode_ok_length in Hdec.
Qed.

Lemma malformed_text_body_fails_witness :
  Body unpadded_text_request = TransportBody 0 "AAAAAAA"
  ∧ is_text (http.Get (Header unpadded_text_request) "content-type")
  ∧ (String.length (base64.newlineFilter "AAAAAAA") mod 4 ≠ 0)%nat
  ∧ ∃ out e, ReadCloser_ReadAll (Body (convert unpadded_text_request).1)
             = (out, Some e).
Proof.
  assert (Hb : Body unpadded_text_request = TransportBody 0 "AAAAAAA") by reflexivity.
  assert (Ht : is_text (http.Get (Header unpadded_text_request) "content-type"))
    by (left; vm_compute; reflexivity).
  assert (Hl : (String.length (base64.newlineFilter "AAAAAAA") mod 4 ≠ 0)%nat)
    by (vm_compute; discriminate).
  split_and!; [exact Hb | exact Ht | exact Hl |].
  exact (malformed_text_body_fails unpadded_text_request 0 "AAAAAAA" Hb Ht Hl).
Defined.

(** ** What reaches the transport *)

Lemma response_WriteHeader_flushes (code : Z) (r : response) :
  rw_flushes (response_WriteHeader code r) = rw_flushes r.
Proof. unfold response_WriteHeader. by destruct (rw_sent r). Qed.

Lemma exec_flushes (w : gRPCWebResponseWriter) (c : call) :
  rw_flushes (wrapped (exec w c))
  = (rw_flushes (wrapped w) + flushes [c])%nat.
Proof.
  destruct c; cbn [exec flushes rwWrite rwWriteHeader rwFlush rwWithHeader
                   gRPCWebResponseWriter_ResponseWriter]; rewrite ?Nat.add_0_r.
  - unfold gRPCWebResponseWriter_Write, Writer_Write, base64.encoder_Write.
    destruct (encoder w) as [[|buf]|]; try case_bool_decide;
      try destruct (base64.groups _) as [out held];
      try case_bool_decide; cbn; rewrite ?response_WriteHeader_flushes; done.
  - cbn. by rewrite response_WriteHeader_flushes.
  - unfold gRPCWebResponseWriter_Flush.
    destruct (encoder w) as [[|buf]|]; try case_bool_decide; cbn;
      rewrite ?response_WriteHeader_flushes; cbn;
      rewrite ?response_WriteHeader_flushes; lia.
  - done.
  - done.
  - done.
  - done.
Qed.

Lemma run_cons `{ResponseWriter W} (c : call) (cs : list call) (w : W) :
  run (c :: cs) w = run cs (exec w c).
Proof. done. Qed.

Lemma run_flushes (cs : list call) (w : gRPCWebResponseWriter) :
  rw_flushes (wrapped (run cs w)) = (rw_flushes (wrapped w) + flushes cs)%nat.
Proof.
  revert w. induction cs as [|c cs IH]; intros w.
  - cbn. lia.
  - rewrite run_cons, IH, exec_flushes. destruct c; cbn [flushes]; lia.
Qed.

Lemma exec_binary_body (w : gRPCWebResponseWriter) (c : call) :
  contentType w ≠ ContentTypeGRPCWebTextProto →
  (∀ buf, encoder w ≠ Some (Base64Encoder buf)) →
  rw_body (wrapped (exec w c)) = rw_body (wrapped w) +:+ flatten (written [c]).
Proof.
  intros Hct He.
  destruct c; cbn [exec written flatten rwWrite rwWriteHeader rwFlush rwWithHeader
                   gRPCWebResponseWriter_ResponseWriter]; rewrite ?app_nil_r.
  - by destruct (Write_binary_mode p w Hct He) as [_ ->].
  - by destruct (WriteHeader_content_type statusCode w) as (_ & _ & -> & _).
  - unfold gRPCWebResponseWriter_Flush.
    destruct (encoder w) as [[|buf]|] eqn:Hw; cbn [wrapped];
      rewrite ?response_Flush_body; try done.
    by destruct (He buf).
  - done.
  - done.
  - done.
  - done.
Qed.

Lemma flatten_app (l1 l2 : list string) :
  flatten (l1 ++ l2) = flatten l1 +:+ flatten l2.
Proof.
  induction l1 as [|s l1 IH]; [done|].
  cbn [app flatten]. by rewrite IH, app_assoc.
Qed.

Lemma written_cons (c : call) (cs : list call) :
  written (c :: cs) = written [c] ++ written cs.
Proof. by destruct c. Qed.

Lemma run_binary_body (cs : list call) (w : gRPCWebResponseWriter) :
  contentType w ≠ ContentTypeGRPCWebTextProto →
  (∀ buf, encoder w ≠ Some (Base64Encoder buf)) →
  rw_body (wrapped (run cs w)) = rw_body (wrapped w) +:+ flatten (written cs).
Proof.
  revert w. induction cs as [|c cs IH]; intros w Hct He.
  - cbn. by rewrite app_nil_r.
  - rewrite run_cons, IH.
    + rewrite exec_binary_body by done.
      by rewrite (written_cons c cs), flatten_app, app_assoc.
    + by rewrite exec_contentType.
    + by apply exec_binary_encoder.
Qed.

(** X6: in binary mode the bridge passes the handler's bytes on untouched.
    Whatever the handler calls, in whatever order, the body at the transport
    is the chunks it wrote, in order, with nothing added or withheld; each
    of its flushes reaches the transport, and no base64 encoder is ever
    installed. *)
Theorem binary_writes_pass_through (resp : response) (ct : string)
    (cs : list call) :
  ct ≠ ContentTypeGRPCWebTextProto →
  let w := run cs (mkWriter resp None ct) in
  rw_body (wrapped w) = rw_body resp +:+ flatten (written cs)
  ∧ rw_flushes (wrapped w) = (rw_flushes resp + flushes cs)%nat
  ∧ ∀ buf, encoder w ≠ Some (Base64Encoder buf).
Proof.
  intros Hct. cbn zeta. split_and!.
  - by rewrite run_binary_body.
  - by rewrite run_flushes.
  - by apply run_binary_encoder.
Qed.

Lemma binary_writes_pass_through_witness :
  ContentTypeGRPCWebProto ≠ ContentTypeGRPCWebTextProto
  ∧ rw_body (wrapped (run (two_chunks binary_request)
                          (mkWriter fresh None ContentTypeGRPCWebProto)))
    = rw_body fresh +:+ flatten (written (two_chunks binary_request)).
Proof.
  assert (Hct : ContentTypeGRPCWebProto ≠ ContentTypeGRPCWebTextProto) by discriminate.
  split; [exact Hct|].
  exact (proj1 (binary_writes_pass_through fresh ContentTypeGRPCWebProto
                  (two_chunks binary_request) Hct)).
Defined.

(** The encodings of the runs, with the groups of the first run that are
    complete already taken out in front. *)
Lemma runs_groups (cs : list call) (x : string) :
  flatten (map base64.Encode (runs x cs))
  = (base64.groups x).1
    +:+ flatten (map base64.Encode (runs (base64.groups x).2 cs)).
Proof.
  revert x. induction cs as [|c cs IH]; intros x.
  - cbn [runs map flatten]. rewrite !app_nil_r, (Encode_groups x).
    by destruct (base64.groups x).
  - destruct c; cbn [runs map flatten]; try apply IH.
    + rewrite (IH (x +:+ p)), (IH ((base64.groups x).2 +:+ p)), (groups_app x p).
      destruct (base64.groups x) as [o h]. cbn [fst snd].
      destruct (base64.groups (h +:+ p)) as [o' h']. cbn [fst snd].
      by rewrite app_assoc.
    + rewrite (Encode_groups x). destruct (base64.groups x) as [o h].
      cbn [fst snd]. by rewrite app_assoc.
Qed.

Lemma run_text_body (cs : list call) (w : gRPCWebResponseWriter) :
  contentType w = ContentTypeGRPCWebTextProto →
  encoder w ≠ Some WrappedWriter →
  rw_body (wrapped (run cs w)) +:+ base64.Encode (pending (run cs w))
  = rw_body (wrapped w) +:+ flatten (map base64.Encode (runs (pending w) cs)).
Proof.
  revert w. induction cs as [|c cs IH]; intros w Hct He.
  - cbn [run foldl runs map flatten]. by rewrite app_nil_r.
  - rewrite run_cons, IH;
      [|by rewrite exec_contentType|by apply exec_text_encoder].
    destruct c as [p|code| |k v|k v|k|k vs];
      cbn [exec runs rwWrite rwWriteHeader rwFlush rwWithHeader
           gRPCWebResponseWriter_ResponseWriter].
    + destruct (Write_text_mode p w Hct He) as [He' Hb'].
      rewrite Hb', app_assoc. f_equal.
      rewrite (runs_groups cs (pending w +:+ p)). f_equal.
      unfold pending at 1. by rewrite He'.
    + destruct (WriteHeader_content_type code w) as (_ & He' & Hb' & _).
      unfold pending. by rewrite He', Hb'.
    + destruct (encoder w) as [[|buf]|] eqn:Hw; [done| |].
      * destruct (Flush_text_body w buf Hw) as [Hb Hn].
        rewrite Hb, app_assoc. unfold pending. rewrite Hn, Hw.
        cbn [map flatten]. done.
      * unfold gRPCWebResponseWriter_Flush, pending. rewrite Hw. cbn [wrapped encoder].
        rewrite response_Flush_body. cbn [map flatten]. done.
    + done.
    + done.
    + done.
    + done.
Qed.

Lemma runs_written (cs : list call) (x : string) :
  flatten (runs x cs) = x +:+ flatten (written cs).
Proof.
  revert x. induction cs as [|c cs IH]; intros x.
  - cbn. done.
  - destruct c; cbn [runs written flatten]; rewrite ?IH; try done.
    by rewrite app_assoc.
Qed.

(** X7: in text mode the response is a sequence of base64 runs, one for the
    bytes written between two flushes.  After any calls of the handler and
    a final flush, the body at the transport is the padded base64 encoding
    of each run, one after the other; each of them decodes to its run, and
    the runs together are the chunks written, in order.  A flush with
    nothing written since the last one adds nothing. *)
Theorem text_runs_between_flushes (resp : response) (cs : list call) :
  let w := gRPCWebResponseWriter_Flush
             (run cs (mkWriter resp None ContentTypeGRPCWebTextProto)) in
  rw_body (wrapped w)
  = rw_body resp +:+ flatten (map base64.Encode (runs EmptyString cs))
  ∧ flatten (runs EmptyString cs) = flatten (written cs)
  ∧ Forall (λ r, base64.DecodeStream (base64.Encode r) = (r, None))
           (runs EmptyString cs)
  ∧ base64.Encode EmptyString = EmptyString
  ∧ encoder w = None
  ∧ rw_flushes (wrapped w) = S (rw_flushes resp + flushes cs).
Proof.
  cbn zeta.
  set (w0 := mkWriter resp None ContentTypeGRPCWebTextProto).
  assert (Hct : contentType w0 = ContentTypeGRPCWebTextProto) by done.
  assert (He : encoder w0 ≠ Some WrappedWriter) by done.
  assert (Hbody : rw_body (wrapped (run cs w0)) +:+ base64.Encode (pending (run cs w0))
                  = rw_body resp +:+ flatten (map base64.Encode (runs EmptyString cs)))
    by exact (run_text_body cs w0 Hct He).
  pose proof (run_text_encoder cs w0 Hct He) as Henc.
  assert (Hfl : rw_flushes (wrapped (run cs w0)) = (rw_flushes resp + flushes cs)%nat)
    by exact (run_flushes cs w0).
  set (w := run cs w0) in *. split_and!.
  - rewrite <- Hbody. unfold pending.
    destruct (encoder w) as [[|buf]|] eqn:Hw; [done| |].
    + by destruct (Flush_text_body w buf Hw) as [-> _].
    + unfold gRPCWebResponseWriter_Flush. rewrite Hw. cbn [wrapped].
      rewrite response_Flush_body. by rewrite app_nil_r.
  - by rewrite runs_written.
  - apply Forall_forall. intros r _. apply DecodeStream_Encode.
  - done.
  - unfold gRPCWebResponseWriter_Flush. by destruct (encoder w) as [[|buf]|].
  - pose proof (exec_flushes w CallFlush) as Hf. cbn [exec flushes rwFlush
      gRPCWebResponseWriter_ResponseWriter] in Hf. rewrite Hf, Hfl. cbn. lia.
Qed.

(** ** The trailer frame and the whole response *)






(** X10: the whole body of a binary response.  For a gRPC-Web request whose
    accept header is not a text token, the body at the transport is what
    was there, the chunks the handler wrote for the converted request, in
    order and unchanged, and one trailer frame for the trailers found in
    the header map the handler left. *)
Theorem binary_response_body `{RangeOrder} (handler : Handler) (resp : response)
    (req : Request) :
  IsGRPCWebRequest req = true →
  ¬ is_text (http.Get (Header req) "accept") →
  let w := Handler_ServeHTTP handler (mkWriter resp None (convert req).2)
             (convert req).1 in
  rw_body (grpcWebHandler_ServeHTTP handler resp req)
  = rw_body resp
    +:+ flatten (written (handler (convert req).1))
    +:+ trailer_frame (trailer_block (gRPCWebResponseWriter_Header w)).
Proof.
  intros Hweb Hacc. cbn zeta.
  rewrite (ServeHTTP_binary_body handler resp req Hweb Hacc). cbn zeta.
  unfold Handler_ServeHTTP at 1.
  rewrite run_binary_body, app_assoc; [done| |done].
  cbn [contentType]. rewrite convert_contentType.
  by rewrite (bool_decide_eq_false_2 _ Hacc).
Qed.

Lemma binary_response_body_witness :
  IsGRPCWebRequest binary_request = true
  ∧ ¬ is_text (http.Get (Header binary_request) "accept")
  ∧ rw_body (grpcWebHandler_ServeHTTP two_chunks fresh binary_request)
    = bytes [0; 0; 0; 0; 2; 8; 7; 128; 0; 0; 0; 16] +:+ "Grpc-Status: 0" +:+ CRLF.
Proof.
  assert (Hweb : IsGRPCWebRequest binary_request = true) by (vm_compute; reflexivity).
  assert (Hacc : ¬ is_text (http.Get (Header binary_request) "accept"))
    by (intros [Ht|Ht]; vm_compute in Ht; discriminate Ht).
  split; [exact Hweb|]. split; [exact Hacc|].
  rewrite (binary_response_body two_chunks fresh binary_request Hweb Hacc).
  vm_compute. reflexivity.
Defined.

(** ** Requests that are not gRPC-Web *)

Lemma response_run_body (cs : list call) (resp : response) :
  rw_body (run cs resp) = rw_body resp +:+ flatten (written cs).
Proof.
  revert resp. induction cs as [|c cs IH]; intros resp.
  - cbn. by rewrite app_nil_r.
  - rewrite run_cons, IH, (written_cons c cs), flatten_app, <- app_assoc. f_equal.
    destruct c; cbn [exec written flatten rwWrite rwWriteHeader rwFlush rwWithHeader
                     response_ResponseWriter]; rewrite ?app_nil_r;
      rewrite ?response_Write_body, ?response_WriteHeader_body, ?response_Flush_body;
      done.
Qed.

(** X11: a request that is not a gRPC-Web request is not touched.  The
    bridge and [RootHandler] call a handler with the request and the
    writer as they are: [RootHandler] the gRPC handler for a native gRPC
    request and the fallback handler otherwise, the bridge its wrapped
    handler.  The body is what that handler wrote: no content type is
    imposed, nothing is encoded and no trailer frame is added. *)
Theorem other_requests_pass_through `{RangeOrder} (gRPCHandler fallback : Handler)
    (resp : response) (req : Request) :
  IsGRPCWebRequest req = false →
  let chosen := if IsGRPCRequest req then gRPCHandler else fallback in
  RootHandler gRPCHandler fallback resp req = run (chosen req) resp
  ∧ rw_body (RootHandler gRPCHandler fallback resp req)
    = rw_body resp +:+ flatten (written (chosen req))
  ∧ grpcWebHandler_ServeHTTP gRPCHandler resp req = run (gRPCHandler req) resp
  ∧ rw_body (grpcWebHandler_ServeHTTP gRPCHandler resp req)
    = rw_body resp +:+ flatten (written (gRPCHandler req)).
Proof.
  intros Hweb. cbn zeta.
  assert (Hroot : RootHandler gRPCHandler fallback resp req
                  = run ((if IsGRPCRequest req then gRPCHandler else fallback) req) resp).
  { unfold RootHandler. rewrite Hweb. by destruct (IsGRPCRequest req). }
  assert (Hbridge : grpcWebHandler_ServeHTTP gRPCHandler resp req
                    = run (gRPCHandler req) resp).
  { unfold grpcWebHandler_ServeHTTP. by rewrite Hweb. }
  split_and!; [done| |done|].
  - by rewrite Hroot, response_run_body.
  - by rewrite Hbridge, response_run_body.
Qed.

Lemma other_requests_pass_through_witness :
  IsGRPCWebRequest native_request = false
  ∧ rw_body (RootHandler two_chunks (λ _, [CallWrite "not found"]) fresh native_request)
    = bytes [0; 0; 0; 0; 2; 8; 7]
  ∧ IsGRPCWebRequest plain_request = false
  ∧ rw_body (RootHandler two_chunks (λ _, [CallWrite "not found"]) fresh plain_request)
    = "not found".
Proof.
  assert (Hn : IsGRPCWebRequest native_request = false) by (vm_compute; reflexivity).
  assert (Hp : IsGRPCWebRequest plain_request = false) by (vm_compute; reflexivity).
  destruct (other_requests_pass_through two_chunks (λ _, [CallWrite "not found"])
              fresh native_request Hn) as (_ & Hbn & _).
  destruct (other_requests_pass_through two_chunks (λ _, [CallWrite "not found"])
              fresh plain_request Hp) as (_ & Hbp & _).
  split_and!; [exact Hn | | exact Hp |].
  - rewrite Hbn. vm_compute. reflexivity.
  - rewrite Hbp. vm_compute. reflexivity.
Defined.

(** ** The order of the map *)

(** X12: the trailer block does not depend on the order in which the header
    map is ranged over, as long as at most one of its keys is "trailer" in
    lower case (as when the handler declares its trailers with [Set] or
    [Add], which store them under "Trailer"); the declared names are then
    the values of that key. *)
Theorem trailer_block_order_independent (R1 R2 : RangeOrder) (h : http.Header) :
  one_trailer_key h →
  @trailer_block R1 h = @trailer_block R2 h
  ∧ (∀ key, strings.ToLower key = "trailer" → is_Some (h !! key) →
            h !! key = Some (declared_trailers (@range_of R1 h))).
Proof.
  intros Hone.
  assert (Hdecl : ∀ (R : RangeOrder) key, strings.ToLower key = "trailer" →
                  is_Some (h !! key) →
                  h !! key = Some (declared_trailers (@range_of R h))).
  { intros R key Hlow Hsome.
    destruct (@declared_trailers_spec R h) as [[key' [Hlow' Hkey']]|[_ Hnone]].
    - by rewrite (Hone key key' Hlow Hlow' Hsome (mk_is_Some _ _ Hkey')).
    - rewrite (Hnone key Hlow) in Hsome. by destruct Hsome. }
  split; [|by apply Hdecl].
  unfold trailer_block. f_equal. f_equal.
  destruct (@declared_trailers_spec R1 h) as [[k1 [Hl1 Hk1]]|[E1 Hn1]].
  - pose proof (Hdecl R2 k1 Hl1 (mk_is_Some _ _ Hk1)) as Hk2.
    rewrite Hk1 in Hk2. by injection Hk2.
  - destruct (@declared_trailers_spec R2 h) as [[k2 [Hl2 Hk2]]|[E2 _]].
    + by rewrite (Hn1 k2 Hl2) in Hk2.
    + by rewrite E1, E2.
Qed.

Lemma failed_call_header_one_trailer_key : one_trailer_key failed_call_header.
Proof.
  assert (Hkeys : ∀ k, is_Some (failed_call_header !! k) →
                  k ∈ ["Grpc-Message"; "Grpc-Status"; "Trailer"]).
  { intros k Hk. apply elem_of_dom in Hk. revert Hk.
    unfold failed_call_header, http.Set_, http.Add. canonical_key.
    rewrite !dom_insert_L, dom_empty_L, !elem_of_union, !elem_of_singleton,
      !elem_of_cons, elem_of_empty, elem_of_nil. tauto. }
  intros k1 k2 Hl1 Hl2 Hs1 Hs2.
  apply Hkeys in Hs1, Hs2.
  rewrite !elem_of_cons, elem_of_nil in Hs1, Hs2.
  destruct Hs1 as [->|[->|[->|[]]]], Hs2 as [->|[->|[->|[]]]];
    try reflexivity; vm_compute in Hl1, Hl2; discriminate.
Qed.

Lemma trailer_block_order_independent_witness :
  one_trailer_key failed_call_header
  ∧ @trailer_block map_to_list_RangeOrder failed_call_header
    = @trailer_block reversed_RangeOrder failed_call_header.
Proof.
  split; [exact failed_call_header_one_trailer_key|].
  exact (proj1 (trailer_block_order_independent map_to_list_RangeOrder
                  reversed_RangeOrder failed_call_header
                  failed_call_header_one_trailer_key)).
Defined.

(** ** Flushing before the first write *)

Lemma header_updates_run (pre : list call) (w : gRPCWebResponseWriter) :
  forallb header_update pre = true →
  encoder (run pre w) = encoder w
  ∧ rw_sent (wrapped (run pre w)) = rw_sent (wrapped w)
  ∧ rw_body (wrapped (run pre w)) = rw_body (wrapped w)
  ∧ gRPCWebResponseWriter_Header (run pre w) = rw_header (run pre (wrapped w)).
Proof.
  revert w. induction pre as [|c pre IH]; intros w Hpre; [done|].
  cbn [forallb] in Hpre. apply andb_true_iff in Hpre as [Hc Hpre].
  rewrite !run_cons. destruct (IH (exec w c) Hpre) as (-> & -> & -> & ->).
  by destruct c.
Qed.

(** X13: the content type is applied by [Write] and [WriteHeader] only.  A
    handler that has only set headers and then flushes, before any write
    and any status, has its header block sent with status 200 and with the
    content type it set itself (or none): [Flush] hands the flush to the
    transport without applying the gRPC-Web content type, where
    [WriteHeader] at the same place would have sent it. *)
Theorem flush_first_skips_content_type (resp : response) (ct : string)
    (pre : list call) (code : Z) :
  rw_sent resp = None →
  forallb header_update pre = true →
  let w := run pre (mkWriter resp None ct) in
  let hdr := rw_header (run pre resp) in
  rw_sent (wrapped (gRPCWebResponseWriter_Flush w)) = Some (StatusOK, hdr)
  ∧ rw_sent (wrapped (gRPCWebResponseWriter_WriteHeader code w))
    = Some (code, http.Set_ hdr "content-type" ct)
  ∧ rw_body (wrapped (gRPCWebResponseWriter_Flush w)) = rw_body resp
  ∧ encoder (gRPCWebResponseWriter_Flush w) = None.
Proof.
  intros Hresp Hpre. cbn zeta.
  destruct (header_updates_run pre (mkWriter resp None ct) Hpre)
    as (He & Hs & Hb & Hh).
  cbn [encoder wrapped] in He, Hs, Hb, Hh.
  set (w := run pre (mkWriter resp None ct)) in *.
  unfold gRPCWebResponseWriter_Header in Hh.
  split_and!.
  - unfold gRPCWebResponseWriter_Flush. rewrite He. cbn [wrapped].
    unfold response_Flush. cbn [rw_sent]. rewrite response_WriteHeader_sent.
    by rewrite Hs, Hresp, Hh.
  - destruct (WriteHeader_content_type code w) as (_ & _ & _ & ->).
    assert (Hct : contentType w = ct) by (subst w; by rewrite run_contentType).
    by rewrite Hs, Hresp, Hh, Hct.
  - unfold gRPCWebResponseWriter_Flush. rewrite He. cbn [wrapped].
    by rewrite response_Flush_body.
  - unfold gRPCWebResponseWriter_Flush. by rewrite He.
Qed.

Lemma flush_first_skips_content_type_witness :
  rw_sent fresh = None
  ∧ forallb header_update [CallHeaderSet "Content-Type" "application/grpc"] = true
  ∧ rw_sent (wrapped (gRPCWebResponseWriter_Flush
                        (run [CallHeaderSet "Content-Type" "application/grpc"]
                             (mkWriter fresh None ContentTypeGRPCWebProto))))
    = Some (StatusOK,
            rw_header (run [CallHeaderSet "Content-Type" "application/grpc"] fresh)).
Proof.
  assert (Hs : rw_sent fresh = None) by reflexivity.
  assert (Hp : forallb header_update
                 [CallHeaderSet "Content-Type" "application/grpc"] = true)
    by reflexivity.
  split; [exact Hs|]. split; [exact Hp|].
  exact (proj1 (flush_first_skips_content_type fresh ContentTypeGRPCWebProto
                  [CallHeaderSet "Content-Type" "application/grpc"] 200 Hs Hp)).
Defined.
